(** * Release verifier for harmony v1.1.0: a shallow embedding

    The script [harmony_v1.1.0_release_verifier.py] queries the GitHub REST
    API and prints a verdict.  It is modelled here as follows.

    - Python text ([str]) is a list of Unicode code points, so that [len]
      counts characters as CPython does.
    - The values produced by [response.json()] are the inductive [pyval];
      Python's [None] and JSON [null] are the one constructor [VNone].
      JSON numbers are integers (every numeric field the script reads from
      the API is one).
    - Every function of the script lives in the monad [M]: it yields the
      events it causes (HTTP requests, lines printed on either stream) and
      either a value or an uncaught Python exception.
    - The interpreter's library functions that the script calls but does not
      define ([str.lower], [repr] of containers, base64 + UTF-8 decoding) and
      the outside world ([requests.get], [os.environ]) are Section
      variables: every result holds for all of them.
    - The script is embedded twice.  The first embedding takes stdout for
      a stream that can write every line and [load_dotenv] for a call that
      returns; the results on the single steps are stated on it.
      [Terminal] embeds the functions that print on stdout once more, with
      a [print] that raises [UnicodeEncodeError] on a line that stdout
      cannot encode and a [load_dotenv] that may raise; the results on the
      exit code and on uncaught exceptions are stated on it.  The two agree
      where stdout writes every line and [load_dotenv] returns
      ([terminal_run_agrees], [terminal_main_agrees]). *)

From Stdlib Require Import String Ascii DecimalString.
From Stdlib Require Import List ZArith NArith Bool Arith Lia.
Import ListNotations.

#[local] Set Warnings "-register-all".

(* ------------------------------------------------------------------ *)
(** ** Text *)

Definition pystr := list N.

(** A Rocq literal read as Python text (one code point per character). *)
Definition py (s : string) : pystr := map N_of_ascii (list_ascii_of_string s).

(** The double-quote character. *)
Definition dquote : pystr := [34%N].

Fixpoint str_eqb (a b : pystr) : bool :=
  match a, b with
  | [], [] => true
  | x :: a', y :: b' => N.eqb x y && str_eqb a' b'
  | _, _ => false
  end.

Fixpoint startswith (p s : pystr) : bool :=
  match p, s with
  | [], _ => true
  | _ :: _, [] => false
  | x :: p', y :: s' => N.eqb x y && startswith p' s'
  end.

(** [sub in text] on two [str] operands. *)
Fixpoint str_in (sub text : pystr) : bool :=
  match text with
  | [] => startswith sub []
  | _ :: rest => startswith sub text || str_in sub rest
  end.

(** [str(z)] for an [int]. *)
Definition str_of_int (z : Z) : pystr := py (NilZero.string_of_int (Z.to_int z)).

(** [s.replace(c, "")] for a one-character [c]. *)
Definition remove_char (c : N) (s : pystr) : pystr :=
  filter (fun x => negb (N.eqb x c)) s.

(* ------------------------------------------------------------------ *)
(** ** Python values *)

Inductive pyval : Type :=
| VNone
| VBool (b : bool)
| VInt (z : Z)
| VStr (s : pystr)
| VList (l : list pyval)
| VDict (items : list (pystr * pyval)).

Inductive exn : Type := AttributeError | TypeError | ValueError.

Inductive outcome (A : Type) : Type :=
| Ok (a : A)
| Raise (e : exn).
Arguments Ok {A} a.
Arguments Raise {A} e.

(** Truth value testing ([not x], [if x]). *)
Definition truthy (v : pyval) : bool :=
  match v with
  | VNone => false
  | VBool b => b
  | VInt z => negb (Z.eqb z 0)
  | VStr s => match s with [] => false | _ => true end
  | VList l => match l with [] => false | _ => true end
  | VDict d => match d with [] => false | _ => true end
  end.

Definition str_truthy (s : pystr) : bool :=
  match s with [] => false | _ => true end.

Definition is_none (v : pyval) : bool :=
  match v with VNone => true | _ => false end.

(** A dict is an association list read from the left: the first binding of a
    key is the dict's binding. *)
Fixpoint lookup (k : pystr) (items : list (pystr * pyval)) : option pyval :=
  match items with
  | [] => None
  | (k', v) :: rest => if str_eqb k k' then Some v else lookup k rest
  end.

Fixpoint keys (items : list (pystr * pyval)) : list pystr :=
  match items with
  | [] => []
  | (k, _) :: rest =>
      let ks := keys rest in
      if existsb (str_eqb k) ks then ks else k :: ks
  end.

(** [obj.get(k, default)]: only a dict has the method. *)
Definition py_get (obj : pyval) (k : pystr) (default : pyval) : outcome pyval :=
  match obj with
  | VDict items =>
      Ok (match lookup k items with Some v => v | None => default end)
  | _ => Raise AttributeError
  end.

(** [len(v)]. *)
Definition py_len (v : pyval) : outcome nat :=
  match v with
  | VStr s => Ok (length s)
  | VList l => Ok (length l)
  | VDict items => Ok (length (keys items))
  | _ => Raise TypeError
  end.

Definition is_str (s : pystr) (v : pyval) : bool :=
  match v with VStr t => str_eqb s t | _ => false end.

(** [s in v] for a [str] [s]: substring of a str, element of a list, key of
    a dict. *)
Definition py_in (s : pystr) (v : pyval) : outcome bool :=
  match v with
  | VStr t => Ok (str_in s t)
  | VList l => Ok (existsb (is_str s) l)
  | VDict items => Ok (match lookup s items with Some _ => true | None => false end)
  | _ => Raise TypeError
  end.

(** [v[:n]].  A dict subscripted by a slice raises as well (TypeError up to
    CPython 3.11); the script never inspects the kind of an exception. *)
Definition py_slice_to (n : nat) (v : pyval) : outcome pyval :=
  match v with
  | VStr s => Ok (VStr (firstn n s))
  | VList l => Ok (VList (firstn n l))
  | _ => Raise TypeError
  end.

(** [v != s] for a [str] [s]. *)
Definition py_ne_str (v : pyval) (s : pystr) : bool := negb (is_str s v).

(* ------------------------------------------------------------------ *)
(** ** Events and the monad of the script *)

Inductive http_result : Type :=
| Response (status_code : Z) (json : option pyval) (text : pystr)
    (** [json = None]: [response.json()] raises *)
| RequestFailed.
    (** [requests.get] raises (connection error, timeout) *)

Definition headers_t := list (pystr * pystr).

(** One constructor per [print] of the script, carrying the values that the
    line formats (the fixed Chinese wording is not reproduced). *)
Inductive message : Type :=
| MApiNotFound (endpoint : pystr)
| MApiError (endpoint : pystr) (status_code : Z) (text : pystr)
| MApiException (endpoint : pystr)
| MFileDecodeError (file_path : pystr)
| MNoMergeSha (pr_number : pyval)
| MWrongParentCount (parent_count : nat)
| MMissingPrReference (pr_number : pyval)
| MStep1
| MMissingToken
| MMissingOrg
| MEnvReady (org : pystr)
| MStep2
| MReleaseBranchMissing (branch : pystr)
| MBaseBranchMissing (branch : pystr)
| MBranchesOk (release_branch base_branch : pystr)
| MStep3
| MFileChecking (name path branch : pystr)
| MFileUnreadable (name : pystr)
| MFileTooSmall (name : pystr) (actual : nat) (min_size : Z)
| MMissingContent (required : pystr)
| MMissingContents (missing : list pystr)
| MMissingKeywords (missing : list pystr)
| MFileOk (name : pystr)
| MAllFilesOk
| MFilesFailed
| MStep4
| MNoReleasePr (keyword base_branch : pystr)
| MPrFound (pr_number pr_title merged_day : pyval)
| MStep5
| MPrDetailUnavailable (pr_number : pyval)
| MMergeTargetMismatch (pr_number actual_base : pyval) (expected_base : pystr)
| MMergeTargetOk (pr_number : pyval)
| MStep6
| MMergeMethodOk (pr_number : pyval)
| MMergeMethodBad (pr_number : pyval)
| MSeparator
| MStart
| MAllPassed
| MSummaryRepo (org repo : pystr)
| MSummaryBranch
| MSummaryPr (pr_number : pyval)
| MSummaryMethod.

Inductive event : Type :=
| Get (url : pystr) (headers : headers_t) (timeout : Z)
| Stdout (m : message)
| Stderr (m : message).

Definition M (A : Type) : Type := (list event * outcome A)%type.

Definition ret {A} (a : A) : M A := ([], Ok a).

Definition bind {A B} (m : M A) (k : A -> M B) : M B :=
  match m with
  | (t, Ok a) => let (t', r) := k a in (t ++ t', r)
  | (t, Raise e) => (t, Raise e)
  end.

Definition lift {A} (o : outcome A) : M A := ([], o).

Definition emit (e : event) : M unit := ([e], Ok tt).

(** [print(...)] on a stdout that can write the line ([Terminal.print] is
    [print] on any stdout), and [print(..., file=sys.stderr)]: the error
    stream replaces what it cannot encode and writes every line. *)
Definition print (m : message) : M unit := emit (Stdout m).
Definition eprint (m : message) : M unit := emit (Stderr m).

(** [try: body  except Exception: handler]. *)
Definition try_except {A} (body : M A) (handler : M A) : M A :=
  match body with
  | (t, Ok a) => (t, Ok a)
  | (t, Raise _) => let (t', r) := handler in (t ++ t', r)
  end.

Declare Scope py_scope.
Delimit Scope py_scope with py.
Notation "x <- m ;; k" := (bind m (fun x => k))
  (at level 61, m at next level, right associativity) : py_scope.
Notation "' pat <- m ;; k" := (bind m (fun x => match x with pat => k end))
  (at level 61, pat pattern, m at next level, right associativity) : py_scope.
Notation "m ;; k" := (bind m (fun _ => k))
  (at level 61, right associativity) : py_scope.
Open Scope py_scope.

Definition trace {A} (m : M A) : list event := fst m.
Definition result {A} (m : M A) : outcome A := snd m.

(** The URLs requested, in order. *)
Fixpoint requests (t : list event) : list pystr :=
  match t with
  | [] => []
  | Get url _ _ :: rest => url :: requests rest
  | _ :: rest => requests rest
  end.

(* ------------------------------------------------------------------ *)
(** ** The script *)

Module CoreFile.
(** An entry of [core_files]: a dict whose three content keys are
    optional. *)
Record t : Type := Build {
  name : pystr;
  path : pystr;
  branch : pystr;
  required_content : option pystr;
  required_contents : option (list pystr);
  required_keywords : option (list pystr);
  min_size : Z
}.
End CoreFile.

Record environ : Type := {
  GITHUB_RELEASE_TOKEN : option pystr;
  GITHUB_ORG_HARMONY : option pystr
}.

Definition core_files : list CoreFile.t :=
  [ CoreFile.Build
      [32534; 30721; 37197; 32622; 25991; 20214]%N
      (py "src/encoding.rs") (py "main")
      (Some (py "FormattingToken::MetaSep => " ++ dquote ++ py "<|meta_sep|>" ++ dquote))
      None None 500;
    CoreFile.Build
      [27880; 20876; 34920; 25991; 20214]%N
      (py "src/registry.rs") (py "main")
      None
      (Some [ py "(FormattingToken::MetaSep, " ++ dquote ++ py "<|meta_sep|>" ++ dquote ++ py ")";
              py "(FormattingToken::MetaEnd, " ++ dquote ++ py "<|meta_end|>" ++ dquote ++ py ")" ])
      None 500;
    CoreFile.Build
      [29256; 26412; 37197; 32622; 25991; 20214]%N
      (py "Cargo.toml") (py "main")
      (Some (py "version = " ++ dquote ++ py "1.1.0" ++ dquote))
      None None 200;
    CoreFile.Build
      [21464; 26356; 26085; 24535; 25991; 20214]%N
      (py "CHANGELOG.md") (py "main")
      None None
      (Some [ py "## [1.1.0] - 2025-08-07";
              py "MetaSep token mapping bug";
              py "Fixed MetaSep token";
              py "Registry now properly recognizes" ])
      300 ].

Definition _build_headers (github_token : pystr) : headers_t :=
  [ (py "Authorization", py "token " ++ github_token);
    (py "Accept", py "application/vnd.github.v3+json");
    (py "User-Agent", py "harmony-release-verification-tool") ].

Section Script.

(** The interpreter: [str.lower], [repr] of a list or dict, and
    [base64.b64decode(s).decode("utf-8")] ([None] when either raises). *)
Variable lower : pystr -> pystr.
Variable py_repr : pyval -> pystr.
Variable b64decode_utf8 : pystr -> option pystr.

(** The world: [requests.get(url, headers=..., timeout=...)] and
    [os.environ] once [load_dotenv(".env.release")] has run. *)
Variable requests_get : pystr -> headers_t -> Z -> http_result.
Variable os_environ : environ.

(** What an f-string makes of a value. *)
Definition py_str (v : pyval) : pystr :=
  match v with
  | VNone => py "None"
  | VBool true => py "True"
  | VBool false => py "False"
  | VInt z => str_of_int z
  | VStr s => s
  | VList _ | VDict _ => py_repr v
  end.

(** [v.lower()]: only a str has the method. *)
Definition py_lower (v : pyval) : outcome pystr :=
  match v with
  | VStr s => Ok (lower s)
  | _ => Raise AttributeError
  end.

(** [v.replace("\n", "")]. *)
Definition py_strip_newlines (v : pyval) : outcome pystr :=
  match v with
  | VStr s => Ok (remove_char 10%N s)
  | _ => Raise AttributeError
  end.

Definition py_b64decode_utf8 (s : pystr) : outcome pystr :=
  match b64decode_utf8 s with
  | Some text => Ok text
  | None => Raise ValueError
  end.

Definition _load_env : option pystr * option pystr :=
  (GITHUB_RELEASE_TOKEN os_environ, GITHUB_ORG_HARMONY os_environ).

Definition api_url (org repo endpoint : pystr) : pystr :=
  py "https://api.github.com/repos/" ++ org ++ py "/" ++ repo ++ py "/" ++ endpoint.

Definition _call_github_api (endpoint : pystr) (headers : headers_t)
    (org repo : pystr) : M (bool * pyval) :=
  let url := api_url org repo endpoint in
  emit (Get url headers 10) ;;
  match requests_get url headers 10 with
  | Response status_code json text =>
      if (status_code =? 200)%Z then
        match json with
        | Some data => ret (true, data)
        | None => eprint (MApiException endpoint) ;; ret (false, VNone)
        end
      else if (status_code =? 404)%Z then
        eprint (MApiNotFound endpoint) ;; ret (false, VNone)
      else
        eprint (MApiError endpoint status_code (firstn 200 text)) ;;
        ret (false, VNone)
  | RequestFailed =>
      eprint (MApiException endpoint) ;; ret (false, VNone)
  end.

Definition _check_branch_exists (branch_name : pystr) (headers : headers_t)
    (org repo : pystr) : M bool :=
  '(success, _) <- _call_github_api (py "branches/" ++ branch_name) headers org repo ;;
  ret success.

Definition _get_file_content (file_path branch : pystr) (headers : headers_t)
    (org repo : pystr) : M (option pystr) :=
  '(success, file_data) <-
    _call_github_api (py "contents/" ++ file_path ++ py "?ref=" ++ branch)
      headers org repo ;;
  if negb success || negb (truthy file_data) then ret None
  else
    try_except
      (content <- lift (py_get file_data (py "content") (VStr [])) ;;
       base64_content <- lift (py_strip_newlines content) ;;
       text <- lift (py_b64decode_utf8 base64_content) ;;
       ret (Some text))
      (eprint (MFileDecodeError file_path) ;; ret None).

(** The [for pr in pr_list] loop of [_find_merged_pr]. *)
Fixpoint find_merged_pr_loop (pr_title_keyword : pystr) (pr_list : list pyval)
    : M pyval :=
  match pr_list with
  | [] => ret VNone
  | pr :: rest =>
      title <- lift (py_get pr (py "title") (VStr [])) ;;
      pr_title <- lift (py_lower title) ;;
      merged_at <- lift (py_get pr (py "merged_at") VNone) ;;
      let is_merged := negb (is_none merged_at) in
      if str_in (lower pr_title_keyword) pr_title && is_merged then ret pr
      else find_merged_pr_loop pr_title_keyword rest
  end.

Definition _find_merged_pr (pr_title_keyword base_branch : pystr)
    (headers : headers_t) (org repo : pystr) : M pyval :=
  '(success, pr_list) <-
    _call_github_api
      (py "pulls?state=closed&base=" ++ base_branch ++ py "&per_page=100")
      headers org repo ;;
  match pr_list with
  | VList prs =>
      if negb success then ret VNone
      else find_merged_pr_loop pr_title_keyword prs
  | _ => ret VNone
  end.

Definition _verify_squash_merge (pr_number : pyval) (headers : headers_t)
    (org repo : pystr) : M bool :=
  '(success, pr_detail) <-
    _call_github_api (py "pulls/" ++ py_str pr_number) headers org repo ;;
  if negb success || negb (truthy pr_detail) then ret false
  else
    merge_commit_sha <- lift (py_get pr_detail (py "merge_commit_sha") VNone) ;;
    if negb (truthy merge_commit_sha) then
      eprint (MNoMergeSha pr_number) ;; ret false
    else
      '(success, commit_detail) <-
        _call_github_api (py "commits/" ++ py_str merge_commit_sha) headers org repo ;;
      if negb success || negb (truthy commit_detail) then ret false
      else
        parents <- lift (py_get commit_detail (py "parents") (VList [])) ;;
        parent_count <- lift (py_len parents) ;;
        if negb (parent_count =? 1) then
          eprint (MWrongParentCount parent_count) ;; ret false
        else
          commit <- lift (py_get commit_detail (py "commit") (VDict [])) ;;
          commit_msg <- lift (py_get commit (py "message") (VStr [])) ;;
          found <- lift (py_in (py "#" ++ py_str pr_number) commit_msg) ;;
          if negb found then
            eprint (MMissingPrReference pr_number) ;; ret false
          else ret true.

Definition _verify_environment : M (option pystr * option headers_t) :=
  print MStep1 ;;
  let '(github_token, github_org) := _load_env in
  match github_token with
  | None | Some [] => eprint MMissingToken ;; ret (None, None)
  | Some token =>
      match github_org with
      | None | Some [] => eprint MMissingOrg ;; ret (None, None)
      | Some org =>
          let headers := _build_headers token in
          print (MEnvReady org) ;;
          ret (Some org, Some headers)
      end
  end.

Definition _verify_branches (headers : headers_t) (org repo : pystr) : M bool :=
  print MStep2 ;;
  let release_branch := py "release-v1.1.0" in
  let base_branch := py "main" in
  release_exists <- _check_branch_exists release_branch headers org repo ;;
  if negb release_exists then
    eprint (MReleaseBranchMissing release_branch) ;; ret false
  else
    base_exists <- _check_branch_exists base_branch headers org repo ;;
    if negb base_exists then
      eprint (MBaseBranchMissing base_branch) ;; ret false
    else
      print (MBranchesOk release_branch base_branch) ;; ret true.

(** The [if]/[elif]/[elif] chain on the three content keys; yields
    [content_valid]. *)
Definition check_content (file : CoreFile.t) (file_content : pystr) : M bool :=
  match CoreFile.required_content file with
  | Some required =>
      if negb (str_in required file_content) then
        eprint (MMissingContent (firstn 50 required)) ;; ret false
      else ret true
  | None =>
      match CoreFile.required_contents file with
      | Some required =>
          let missing := filter (fun c => negb (str_in c file_content)) required in
          match missing with
          | _ :: _ =>
              eprint (MMissingContents (map (fun m => firstn 30 m ++ py "...") missing)) ;;
              ret false
          | [] => ret true
          end
      | None =>
          match CoreFile.required_keywords file with
          | Some required =>
              let missing := filter (fun k => negb (str_in k file_content)) required in
              match missing with
              | _ :: _ => eprint (MMissingKeywords missing) ;; ret false
              | [] => ret true
              end
          | None => ret true
          end
      end
  end.

(** One turn of the [for file in core_files] loop; yields the new value of
    [all_passed]. *)
Definition check_core_file (file : CoreFile.t) (all_passed : bool)
    (headers : headers_t) (org repo : pystr) : M bool :=
  print (MFileChecking (CoreFile.name file) (CoreFile.path file) (CoreFile.branch file)) ;;
  file_content <-
    _get_file_content (CoreFile.path file) (CoreFile.branch file) headers org repo ;;
  match file_content with
  | None | Some [] =>
      eprint (MFileUnreadable (CoreFile.name file)) ;; ret false
  | Some text =>
      if (Z.of_nat (length text) <? CoreFile.min_size file)%Z then
        eprint (MFileTooSmall (CoreFile.name file) (length text) (CoreFile.min_size file)) ;;
        ret false
      else
        content_valid <- check_content file text ;;
        if negb content_valid then ret false
        else print (MFileOk (CoreFile.name file)) ;; ret all_passed
  end.

Fixpoint core_files_loop (files : list CoreFile.t) (all_passed : bool)
    (headers : headers_t) (org repo : pystr) : M bool :=
  match files with
  | [] => ret all_passed
  | file :: rest =>
      all_passed' <- check_core_file file all_passed headers org repo ;;
      core_files_loop rest all_passed' headers org repo
  end.

Definition _verify_core_files (headers : headers_t) (org repo : pystr) : M bool :=
  print MStep3 ;;
  all_passed <- core_files_loop core_files true headers org repo ;;
  (if all_passed then print MAllFilesOk else eprint MFilesFailed) ;;
  ret all_passed.

Definition _verify_release_pr (headers : headers_t) (org repo : pystr) : M pyval :=
  print MStep4 ;;
  let pr_title_keyword := py "Release v1.1.0" in
  let base_branch := py "main" in
  release_pr <- _find_merged_pr pr_title_keyword base_branch headers org repo ;;
  if negb (truthy release_pr) then
    eprint (MNoReleasePr pr_title_keyword base_branch) ;; ret VNone
  else
    pr_number <- lift (py_get release_pr (py "number") VNone) ;;
    pr_title <- lift (py_get release_pr (py "title") VNone) ;;
    merged_at <- lift (py_get release_pr (py "merged_at") VNone) ;;
    merged_day <- lift (py_slice_to 10 merged_at) ;;
    print (MPrFound pr_number pr_title merged_day) ;;
    ret pr_number.

Definition _verify_pr_merge_target (pr_number : pyval) (headers : headers_t)
    (org repo : pystr) : M bool :=
  print MStep5 ;;
  let expected_base := py "main" in
  '(success, pr_detail) <-
    _call_github_api (py "pulls/" ++ py_str pr_number) headers org repo ;;
  if negb success || negb (truthy pr_detail) then
    eprint (MPrDetailUnavailable pr_number) ;; ret false
  else
    base <- lift (py_get pr_detail (py "base") (VDict [])) ;;
    actual_base <- lift (py_get base (py "ref") VNone) ;;
    if py_ne_str actual_base expected_base then
      eprint (MMergeTargetMismatch pr_number actual_base expected_base) ;; ret false
    else
      print (MMergeTargetOk pr_number) ;; ret true.

Definition _verify_merge_method (pr_number : pyval) (headers : headers_t)
    (org repo : pystr) : M bool :=
  print MStep6 ;;
  squash <- _verify_squash_merge pr_number headers org repo ;;
  if squash then print (MMergeMethodOk pr_number) ;; ret true
  else eprint (MMergeMethodBad pr_number) ;; ret false.

Definition run_harmony_release_verification : M bool :=
  print MSeparator ;; print MStart ;; print MSeparator ;;
  '(github_org, headers) <- _verify_environment ;;
  match github_org, headers with
  | Some ((_ :: _) as github_org), Some ((_ :: _) as headers) =>
      let repo_name := py "harmony" in
      branches_ok <- _verify_branches headers github_org repo_name ;;
      if negb branches_ok then ret false
      else
        files_ok <- _verify_core_files headers github_org repo_name ;;
        if negb files_ok then ret false
        else
          pr_number <- _verify_release_pr headers github_org repo_name ;;
          if negb (truthy pr_number) then ret false
          else
            target_ok <- _verify_pr_merge_target pr_number headers github_org repo_name ;;
            if negb target_ok then ret false
            else
              method_ok <- _verify_merge_method pr_number headers github_org repo_name ;;
              if negb method_ok then ret false
              else
                print MSeparator ;; print MAllPassed ;;
                print (MSummaryRepo github_org repo_name) ;;
                print MSummaryBranch ;;
                print (MSummaryPr pr_number) ;;
                print MSummaryMethod ;;
                print MSeparator ;;
                ret true
  | _, _ => ret false
  end.

(** The [__main__] block: [sys.exit(0 if verification_success else 1)]; an
    exception that nothing catches ends the interpreter with status 1. *)
Definition main : list event * Z :=
  match run_harmony_release_verification with
  | (t, Ok verification_success) => (t, if verification_success then 0%Z else 1%Z)
  | (t, Raise _) => (t, 1%Z)
  end.

End Script.

(* ------------------------------------------------------------------ *)
(** ** The script on a terminal

    The functions above take the output stream for one that writes every
    line, and [load_dotenv] for a call that returns.  Both can raise:
    [print] on stdout raises [UnicodeEncodeError] (a [ValueError]) when the
    encoding of stdout cannot write the line, as a GBK terminal for the
    closing line of a passing run, which holds U+1F389; [load_dotenv]
    raises, for instance [UnicodeDecodeError] (a [ValueError]) on a file
    that is not UTF-8 text.  Nothing in the script catches either.  The
    error stream replaces what it cannot encode and writes every line.

    The functions that print on stdout are embedded here once more, with
    these two calls as they are; the functions that do not
    ([_call_github_api], [_check_branch_exists], [_get_file_content],
    [_find_merged_pr], [_verify_squash_merge]) are the ones above. *)

Module Terminal.

Section Script.

Variable lower : pystr -> pystr.
Variable py_repr : pyval -> pystr.
Variable b64decode_utf8 : pystr -> option pystr.
Variable requests_get : pystr -> headers_t -> Z -> http_result.
Variable os_environ : environ.

(** Whether the encoding of stdout can write the line. *)
Variable stdout_encodes : message -> bool.

(** What [load_dotenv(".env.release")] does: it returns ([None]) or raises. *)
Variable load_dotenv : option exn.

(** [print(...)]: the line is written, or nothing of it is and
    [UnicodeEncodeError] is raised. *)
Definition print (m : message) : M unit :=
  if stdout_encodes m then emit (Stdout m) else lift (Raise ValueError).

Definition _load_env : M (option pystr * option pystr) :=
  match load_dotenv with
  | Some e => lift (Raise e)
  | None => ret (GITHUB_RELEASE_TOKEN os_environ, GITHUB_ORG_HARMONY os_environ)
  end.

Definition _verify_environment : M (option pystr * option headers_t) :=
  print MStep1 ;;
  '(github_token, github_org) <- _load_env ;;
  match github_token with
  | None | Some [] => eprint MMissingToken ;; ret (None, None)
  | Some token =>
      match github_org with
      | None | Some [] => eprint MMissingOrg ;; ret (None, None)
      | Some org =>
          let headers := _build_headers token in
          print (MEnvReady org) ;;
          ret (Some org, Some headers)
      end
  end.

Definition _verify_branches (headers : headers_t) (org repo : pystr) : M bool :=
  print MStep2 ;;
  let release_branch := py "release-v1.1.0" in
  let base_branch := py "main" in
  release_exists <- _check_branch_exists requests_get release_branch headers org repo ;;
  if negb release_exists then
    eprint (MReleaseBranchMissing release_branch) ;; ret false
  else
    base_exists <- _check_branch_exists requests_get base_branch headers org repo ;;
    if negb base_exists then
      eprint (MBaseBranchMissing base_branch) ;; ret false
    else
      print (MBranchesOk release_branch base_branch) ;; ret true.

Definition check_core_file (file : CoreFile.t) (all_passed : bool)
    (headers : headers_t) (org repo : pystr) : M bool :=
  print (MFileChecking (CoreFile.name file) (CoreFile.path file) (CoreFile.branch file)) ;;
  file_content <-
    _get_file_content b64decode_utf8 requests_get
      (CoreFile.path file) (CoreFile.branch file) headers org repo ;;
  match file_content with
  | None | Some [] =>
      eprint (MFileUnreadable (CoreFile.name file)) ;; ret false
  | Some text =>
      if (Z.of_nat (length text) <? CoreFile.min_size file)%Z then
        eprint (MFileTooSmall (CoreFile.name file) (length text) (CoreFile.min_size file)) ;;
        ret false
      else
        content_valid <- check_content file text ;;
        if negb content_valid then ret false
        else print (MFileOk (CoreFile.name file)) ;; ret all_passed
  end.

Fixpoint core_files_loop (files : list CoreFile.t) (all_passed : bool)
    (headers : headers_t) (org repo : pystr) : M bool :=
  match files with
  | [] => ret all_passed
  | file :: rest =>
      all_passed' <- check_core_file file all_passed headers org repo ;;
      core_files_loop rest all_passed' headers org repo
  end.

Definition _verify_core_files (headers : headers_t) (org repo : pystr) : M bool :=
  print MStep3 ;;
  all_passed <- core_files_loop core_files true headers org repo ;;
  (if all_passed then print MAllFilesOk else eprint MFilesFailed) ;;
  ret all_passed.

Definition _verify_release_pr (headers : headers_t) (org repo : pystr) : M pyval :=
  print MStep4 ;;
  let pr_title_keyword := py "Release v1.1.0" in
  let base_branch := py "main" in
  release_pr <-
    _find_merged_pr lower requests_get pr_title_keyword base_branch headers org repo ;;
  if negb (truthy release_pr) then
    eprint (MNoReleasePr pr_title_keyword base_branch) ;; ret VNone
  else
    pr_number <- lift (py_get release_pr (py "number") VNone) ;;
    pr_title <- lift (py_get release_pr (py "title") VNone) ;;
    merged_at <- lift (py_get release_pr (py "merged_at") VNone) ;;
    merged_day <- lift (py_slice_to 10 merged_at) ;;
    print (MPrFound pr_number pr_title merged_day) ;;
    ret pr_number.

Definition _verify_pr_merge_target (pr_number : pyval) (headers : headers_t)
    (org repo : pystr) : M bool :=
  print MStep5 ;;
  let expected_base := py "main" in
  '(success, pr_detail) <-
    _call_github_api requests_get (py "pulls/" ++ py_str py_repr pr_number)
      headers org repo ;;
  if negb success || negb (truthy pr_detail) then
    eprint (MPrDetailUnavailable pr_number) ;; ret false
  else
    base <- lift (py_get pr_detail (py "base") (VDict [])) ;;
    actual_base <- lift (py_get base (py "ref") VNone) ;;
    if py_ne_str actual_base expected_base then
      eprint (MMergeTargetMismatch pr_number actual_base expected_base) ;; ret false
    else
      print (MMergeTargetOk pr_number) ;; ret true.

Definition _verify_merge_method (pr_number : pyval) (headers : headers_t)
    (org repo : pystr) : M bool :=
  print MStep6 ;;
  squash <- _verify_squash_merge py_repr requests_get pr_number headers org repo ;;
  if squash then print (MMergeMethodOk pr_number) ;; ret true
  else eprint (MMergeMethodBad pr_number) ;; ret false.

Definition run_harmony_release_verification : M bool :=
  print MSeparator ;; print MStart ;; print MSeparator ;;
  '(github_org, headers) <- _verify_environment ;;
  match github_org, headers with
  | Some ((_ :: _) as github_org), Some ((_ :: _) as headers) =>
      let repo_name := py "harmony" in
      branches_ok <- _verify_branches headers github_org repo_name ;;
      if negb branches_ok then ret false
      else
        files_ok <- _verify_core_files headers github_org repo_name ;;
        if negb files_ok then ret false
        else
          pr_number <- _verify_release_pr headers github_org repo_name ;;
          if negb (truthy pr_number) then ret false
          else
            target_ok <- _verify_pr_merge_target pr_number headers github_org repo_name ;;
            if negb target_ok then ret false
            else
              method_ok <- _verify_merge_method pr_number headers github_org repo_name ;;
              if negb method_ok then ret false
              else
                print MSeparator ;; print MAllPassed ;;
                print (MSummaryRepo github_org repo_name) ;;
                print MSummaryBranch ;;
                print (MSummaryPr pr_number) ;;
                print MSummaryMethod ;;
                print MSeparator ;;
                ret true
  | _, _ => ret false
  end.

(** The [__main__] block: [sys.exit(0 if verification_success else 1)]; an
    exception that nothing catches ends the interpreter with status 1. *)
Definition main : list event * Z :=
  match run_harmony_release_verification with
  | (t, Ok verification_success) => (t, if verification_success then 0%Z else 1%Z)
  | (t, Raise _) => (t, 1%Z)
  end.

(** Every step passes: the environment is configured, the two checks before
    discovery return true, discovery returns a number that the orchestrator
    takes for one, and the two checks on that number return true. *)
Definition all_steps_pass : Prop :=
  exists org hdrs n,
    result _verify_environment = Ok (Some org, Some hdrs)
    /\ org <> [] /\ hdrs <> []
    /\ result (_verify_branches hdrs org (py "harmony")) = Ok true
    /\ result (_verify_core_files hdrs org (py "harmony")) = Ok true
    /\ result (_verify_release_pr hdrs org (py "harmony")) = Ok n
    /\ truthy n = true
    /\ result (_verify_pr_merge_target n hdrs org (py "harmony")) = Ok true
    /\ result (_verify_merge_method n hdrs org (py "harmony")) = Ok true.

(** Stdout can write the lines that the orchestrator itself prints on a
    passing run: the three it opens with and the seven it closes with. *)
Definition frame_written (org : pystr) (n : pyval) : bool :=
  stdout_encodes MSeparator && stdout_encodes MStart
  && stdout_encodes MAllPassed
  && stdout_encodes (MSummaryRepo org (py "harmony"))
  && stdout_encodes MSummaryBranch
  && stdout_encodes (MSummaryPr n)
  && stdout_encodes MSummaryMethod.

(** Every step passes and the orchestrator's own lines are written. *)
Definition run_passes : Prop :=
  exists org hdrs n,
    result _verify_environment = Ok (Some org, Some hdrs)
    /\ org <> [] /\ hdrs <> []
    /\ result (_verify_branches hdrs org (py "harmony")) = Ok true
    /\ result (_verify_core_files hdrs org (py "harmony")) = Ok true
    /\ result (_verify_release_pr hdrs org (py "harmony")) = Ok n
    /\ truthy n = true
    /\ result (_verify_pr_merge_target n hdrs org (py "harmony")) = Ok true
    /\ result (_verify_merge_method n hdrs org (py "harmony")) = Ok true
    /\ frame_written org n = true.

(** An exception that the script's surroundings cause: the one that
    [load_dotenv] raises, or the [UnicodeEncodeError] of a [print] whose line
    stdout cannot write. *)
Definition host_fault (e : exn) : Prop :=
  load_dotenv = Some e
  \/ (e = ValueError /\ exists m, stdout_encodes m = false).

End Script.

End Terminal.

(* ------------------------------------------------------------------ *)
(** ** A reference interpreter for the worked examples

    Concrete instances of the three library functions.  They agree with
    CPython on what the examples feed them: [lower] on ASCII text, [repr] on
    values whose strings are printable ASCII without quotes or backslashes,
    and base64 decoding on canonically padded input (CPython also accepts
    some inputs that this decoder rejects). *)

Module Reference.

Definition lower (s : pystr) : pystr :=
  map (fun c => if (65 <=? c)%N && (c <=? 90)%N then (c + 32)%N else c) s.

Fixpoint join (sep : pystr) (parts : list pystr) : pystr :=
  match parts with
  | [] => []
  | [p] => p
  | p :: rest => p ++ sep ++ join sep rest
  end.

Fixpoint repr (v : pyval) : pystr :=
  match v with
  | VNone => py "None"
  | VBool true => py "True"
  | VBool false => py "False"
  | VInt z => str_of_int z
  | VStr s => py "'" ++ s ++ py "'"
  | VList l => py "[" ++ join (py ", ") (map repr l) ++ py "]"
  | VDict items =>
      py "{" ++
      join (py ", ")
        (map (fun kv => py "'" ++ fst kv ++ py "': " ++ repr (snd kv)) items) ++
      py "}"
  end.

(** The value of a character of the base64 alphabet. *)
Definition b64_value (c : N) : option N :=
  if (65 <=? c)%N && (c <=? 90)%N then Some (c - 65)%N
  else if (97 <=? c)%N && (c <=? 122)%N then Some (c - 71)%N
  else if (48 <=? c)%N && (c <=? 57)%N then Some (c + 4)%N
  else if (c =? 43)%N then Some 62%N
  else if (c =? 47)%N then Some 63%N
  else None.

Definition b64_char (v : N) : N :=
  if (v <? 26)%N then (v + 65)%N
  else if (v <? 52)%N then (v + 71)%N
  else if (v <? 62)%N then (v - 4)%N
  else if (v =? 62)%N then 43%N
  else 47%N.

Fixpoint b64decode (s : pystr) : option (list N) :=
  match s with
  | [] => Some []
  | a :: b :: c :: d :: rest =>
      match b64_value a, b64_value b with
      | Some va, Some vb =>
          let b0 := (va * 4 + vb / 16)%N in
          if (c =? 61)%N then
            match rest with
            | [] => if (d =? 61)%N then Some [b0] else None
            | _ => None
            end
          else
            match b64_value c with
            | Some vc =>
                let b1 := ((vb mod 16) * 16 + vc / 4)%N in
                if (d =? 61)%N then
                  match rest with [] => Some [b0; b1] | _ => None end
                else
                  match b64_value d, b64decode rest with
                  | Some vd, Some bytes =>
                      Some (b0 :: b1 :: ((vc mod 4) * 64 + vd)%N :: bytes)
                  | _, _ => None
                  end
            | None => None
            end
      | _, _ => None
      end
  | _ => None
  end.

Fixpoint b64encode (bytes : list N) : pystr :=
  match bytes with
  | [] => []
  | [x] => [b64_char (x / 4); b64_char ((x mod 4) * 16); 61; 61]%N
  | [x; y] =>
      [b64_char (x / 4); b64_char ((x mod 4) * 16 + y / 16);
       b64_char ((y mod 16) * 4); 61]%N
  | x :: y :: z :: rest =>
      [b64_char (x / 4); b64_char ((x mod 4) * 16 + y / 16);
       b64_char ((y mod 16) * 4 + z / 64); b64_char (z mod 64)]%N
      ++ b64encode rest
  end.

Definition continuation (b : N) : bool := (128 <=? b)%N && (b <=? 191)%N.

(** Strict UTF-8: shortest form only, no surrogates, at most U+10FFFF. *)
Fixpoint utf8_decode (bytes : list N) : option pystr :=
  match bytes with
  | [] => Some []
  | b0 :: rest =>
      if (b0 <? 128)%N then option_map (cons b0) (utf8_decode rest)
      else if (194 <=? b0)%N && (b0 <=? 223)%N then
        match rest with
        | b1 :: rest' =>
            if continuation b1 then
              option_map (cons ((b0 - 192) * 64 + (b1 - 128))%N) (utf8_decode rest')
            else None
        | _ => None
        end
      else if (224 <=? b0)%N && (b0 <=? 239)%N then
        match rest with
        | b1 :: b2 :: rest' =>
            if continuation b1 && continuation b2
               && (negb (b0 =? 224)%N || (160 <=? b1)%N)
               && (negb (b0 =? 237)%N || (b1 <=? 159)%N)
            then
              option_map
                (cons ((b0 - 224) * 4096 + (b1 - 128) * 64 + (b2 - 128))%N)
                (utf8_decode rest')
            else None
        | _ => None
        end
      else if (240 <=? b0)%N && (b0 <=? 244)%N then
        match rest with
        | b1 :: b2 :: b3 :: rest' =>
            if continuation b1 && continuation b2 && continuation b3
               && (negb (b0 =? 240)%N || (144 <=? b1)%N)
               && (negb (b0 =? 244)%N || (b1 <=? 143)%N)
            then
              option_map
                (cons ((b0 - 240) * 262144 + (b1 - 128) * 4096
                       + (b2 - 128) * 64 + (b3 - 128))%N)
                (utf8_decode rest')
            else None
        | _ => None
        end
      else None
  end.

Definition utf8_encode_char (c : N) : list N :=
  if (c <? 128)%N then [c]
  else if (c <? 2048)%N then [192 + c / 64; 128 + c mod 64]%N
  else if (c <? 65536)%N then
    [224 + c / 4096; 128 + (c / 64) mod 64; 128 + c mod 64]%N
  else
    [240 + c / 262144; 128 + (c / 4096) mod 64; 128 + (c / 64) mod 64;
     128 + c mod 64]%N.

Definition utf8_encode (s : pystr) : list N := flat_map utf8_encode_char s.

Definition b64decode_utf8 (s : pystr) : option pystr :=
  match b64decode s with
  | Some bytes => utf8_decode bytes
  | None => None
  end.

(** What the contents endpoint carries for a file holding [text]. *)
Definition file_payload (text : pystr) : pyval :=
  VDict [(py "content", VStr (b64encode (utf8_encode text)))].

End Reference.

(* ------------------------------------------------------------------ *)
(** ** Vocabulary of the specification *)

(** [sub] occurs verbatim in [text]. *)
Definition occurs (sub text : pystr) : Prop :=
  exists pre post, text = pre ++ sub ++ post.

(** What a gateway query delivers when it succeeds: status 200 and a body
    that parses. *)
Definition fetched (requests_get : pystr -> headers_t -> Z -> http_result)
    (url : pystr) (headers : headers_t) : option pyval :=
  match requests_get url headers 10%Z with
  | Response status_code (Some data) _ =>
      if (status_code =? 200)%Z then Some data else None
  | _ => None
  end.

(** The line [_call_github_api] prints on a failed query. *)
Definition api_diagnostic (requests_get : pystr -> headers_t -> Z -> http_result)
    (org repo endpoint : pystr) (headers : headers_t) : list event :=
  match requests_get (api_url org repo endpoint) headers 10%Z with
  | Response status_code json text =>
      if (status_code =? 200)%Z then
        match json with
        | Some _ => []
        | None => [Stderr (MApiException endpoint)]
        end
      else if (status_code =? 404)%Z then [Stderr (MApiNotFound endpoint)]
      else [Stderr (MApiError endpoint status_code (firstn 200 text))]
  | RequestFailed => [Stderr (MApiException endpoint)]
  end.

Definition is_api_diagnostic (e : event) : bool :=
  match e with
  | Stderr (MApiNotFound _) | Stderr (MApiError _ _ _) | Stderr (MApiException _) => true
  | _ => false
  end.

(** The title of a pull-request record, [""] when it has none. *)
Definition title_of (items : list (pystr * pyval)) : pystr :=
  match lookup (py "title") items with
  | Some (VStr s) => s
  | _ => []
  end.

(** A record of the pull-request listing: an object whose title, if it has
    one, is text. *)
Definition pull_request_summary (pr : pyval) : Prop :=
  exists items, pr = VDict items
    /\ (lookup (py "title") items = None
        \/ exists s, lookup (py "title") items = Some (VStr s)).

(** The record has a merged timestamp. *)
Definition merged_at_present (items : list (pystr * pyval)) : Prop :=
  exists v, lookup (py "merged_at") items = Some v /\ v <> VNone.

(** [pr] is a merged pull request whose title contains [keyword], letter
    case ignored. *)
Definition release_candidate (lower : pystr -> pystr) (keyword : pystr) (pr : pyval)
    : Prop :=
  exists items, pr = VDict items
    /\ occurs (lower keyword) (lower (title_of items))
    /\ merged_at_present items.

(** The strings a file must contain: the first of the three content keys
    that the entry has decides. *)
Definition required_strings (file : CoreFile.t) : list pystr :=
  match CoreFile.required_content file with
  | Some s => [s]
  | None =>
      match CoreFile.required_contents file with
      | Some l => l
      | None =>
          match CoreFile.required_keywords file with
          | Some l => l
          | None => []
          end
      end
  end.

Definition content_url (org repo : pystr) (file : CoreFile.t) : pystr :=
  api_url org repo
    (py "contents/" ++ CoreFile.path file ++ py "?ref=" ++ CoreFile.branch file).

(** A fetched text meets a rule: it is there, long enough, and holds every
    required string. *)
Definition text_meets_rule (file : CoreFile.t) (text : pystr) : Prop :=
  text <> []
  /\ (CoreFile.min_size file <= Z.of_nat (length text))%Z
  /\ forall s, In s (required_strings file) -> occurs s text.

Definition text_meets_rule_b (file : CoreFile.t) (content : option pystr) : bool :=
  match content with
  | Some (c :: text) =>
      negb (Z.of_nat (length (c :: text)) <? CoreFile.min_size file)%Z
      && forallb (fun s => str_in s (c :: text)) (required_strings file)
  | _ => false
  end.

(** The rule holds in a world: its file is delivered and meets it. *)
Definition rule_satisfied (b64decode_utf8 : pystr -> option pystr)
    (requests_get : pystr -> headers_t -> Z -> http_result)
    (headers : headers_t) (org repo : pystr) (file : CoreFile.t) : Prop :=
  exists text,
    result (_get_file_content b64decode_utf8 requests_get
              (CoreFile.path file) (CoreFile.branch file) headers org repo)
      = Ok (Some text)
    /\ text_meets_rule file text.



(** A branch query succeeds. *)
Definition branch_exists (requests_get : pystr -> headers_t -> Z -> http_result)
    (headers : headers_t) (org repo branch_name : pystr) : bool :=
  match fetched requests_get (api_url org repo (py "branches/" ++ branch_name)) headers with
  | Some _ => true
  | None => false
  end.

(** Two gateways succeed on the same queries; how a failing query fails, and
    what a successful one delivers, is left open. *)
Definition same_successes (gw gw' : pystr -> headers_t -> Z -> http_result)
    (headers : headers_t) : Prop :=
  forall url,
    match fetched gw url headers, fetched gw' url headers with
    | Some _, Some _ | None, None => True
    | _, _ => False
    end.

(** A trace without the lines that [_call_github_api] prints. *)
Definition without_api_diagnostics (t : list event) : list event :=
  filter (fun e => negb (is_api_diagnostic e)) t.

(** [pr_detail.get("base", {}).get("ref")]. *)
Definition base_ref_of (pr_detail : pyval) : outcome pyval :=
  match py_get pr_detail (py "base") (VDict []) with
  | Ok base => py_get base (py "ref") VNone
  | Raise e => Raise e
  end.

(** What the merge-target check makes of the response to its request: the
    line it prints and the value it returns. *)
Definition merge_target_verdict (pr_number : pyval) (response : option pyval)
    : list event * outcome bool :=
  match response with
  | Some pr_detail =>
      if truthy pr_detail then
        match base_ref_of pr_detail with
        | Ok actual =>
            if py_ne_str actual (py "main") then
              ([Stderr (MMergeTargetMismatch pr_number actual (py "main"))], Ok false)
            else ([Stdout (MMergeTargetOk pr_number)], Ok true)
        | Raise e => ([], Raise e)
        end
      else ([Stderr (MPrDetailUnavailable pr_number)], Ok false)
  | None => ([Stderr (MPrDetailUnavailable pr_number)], Ok false)
  end.

(** The three lines [run_harmony_release_verification] starts with. *)
Definition prelude : list event :=
  [Stdout MSeparator; Stdout MStart; Stdout MSeparator].

(** The token or the organization is not configured. *)
Definition configuration_absent (e : environ) : Prop :=
  GITHUB_RELEASE_TOKEN e = None \/ GITHUB_RELEASE_TOKEN e = Some []
  \/ GITHUB_ORG_HARMONY e = None \/ GITHUB_ORG_HARMONY e = Some [].

(** What [_verify_environment] hands over lets the pipeline start. *)
Definition environment_ready (v : option pystr * option headers_t) : bool :=
  match v with
  | (Some (_ :: _), Some (_ :: _)) => true
  | _ => false
  end.

(** The step, 1 to 6, whose function prints a line; 0 for the lines of
    [_call_github_api] and 7 for those of the orchestrator. *)
Definition message_step (m : message) : nat :=
  match m with
  | MApiNotFound _ | MApiError _ _ _ | MApiException _ => 0
  | MStep1 | MMissingToken | MMissingOrg | MEnvReady _ => 1
  | MStep2 | MReleaseBranchMissing _ | MBaseBranchMissing _ | MBranchesOk _ _ => 2
  | MStep3 | MFileChecking _ _ _ | MFileUnreadable _ | MFileTooSmall _ _ _
  | MMissingContent _ | MMissingContents _ | MMissingKeywords _ | MFileOk _
  | MAllFilesOk | MFilesFailed | MFileDecodeError _ => 3
  | MStep4 | MNoReleasePr _ _ | MPrFound _ _ _ => 4
  | MStep5 | MPrDetailUnavailable _ | MMergeTargetMismatch _ _ _ | MMergeTargetOk _ => 5
  | MStep6 | MMergeMethodOk _ | MMergeMethodBad _
  | MNoMergeSha _ | MWrongParentCount _ | MMissingPrReference _ => 6
  | MSeparator | MStart | MAllPassed | MSummaryRepo _ _ | MSummaryBranch
  | MSummaryPr _ | MSummaryMethod => 7
  end.

(** A line of step [k], or of the gateway call made on its behalf. *)
Definition printed_by (k : nat) (e : event) : bool :=
  match e with
  | Get _ _ _ => false
  | Stdout m | Stderr m => (message_step m =? k) || (message_step m =? 0)
  end.

(** An event that step [k] can cause: a request or a line of its own. *)
Definition of_step (k : nat) (e : event) : bool :=
  match e with
  | Get _ _ _ => true
  | _ => printed_by k e
  end.

(** What [_verify_release_pr] makes of the outcome of the search: the line
    it prints and the value it returns. *)
Definition release_pr_verdict (found : outcome pyval) : list event * outcome pyval :=
  match found with
  | Raise e => ([], Raise e)
  | Ok release_pr =>
      if truthy release_pr then
        match py_get release_pr (py "number") VNone,
              py_get release_pr (py "title") VNone,
              py_get release_pr (py "merged_at") VNone with
        | Ok pr_number, Ok pr_title, Ok merged_at =>
            match py_slice_to 10 merged_at with
            | Ok merged_day =>
                ([Stdout (MPrFound pr_number pr_title merged_day)], Ok pr_number)
            | Raise e => ([], Raise e)
            end
        | Raise e, _, _ | _, Raise e, _ | _, _, Raise e => ([], Raise e)
        end
      else ([Stderr (MNoReleasePr (py "Release v1.1.0") (py "main"))], Ok VNone)
  end.

(** The parents and the message of a commit record, as the script reads
    them: a missing field counts as no parent and as the empty message. *)
Definition parents_of (commit_items : list (pystr * pyval)) : option (list pyval) :=
  match lookup (py "parents") commit_items with
  | None => Some []
  | Some (VList l) => Some l
  | Some _ => None
  end.

Definition message_of (commit_items : list (pystr * pyval)) : option pystr :=
  match lookup (py "commit") commit_items with
  | None => Some []
  | Some (VDict commit) =>
      match lookup (py "message") commit with
      | None => Some []
      | Some (VStr s) => Some s
      | Some _ => None
      end
  | Some _ => None
  end.

(** The base64 text of a contents record, as [_get_file_content] reads it:
    a missing field counts as the empty text. *)
Definition content_of (items : list (pystr * pyval)) : option pystr :=
  match lookup (py "content") items with
  | None => Some []
  | Some (VStr s) => Some s
  | Some _ => None
  end.

(** A record of the listing that the loop of [_find_merged_pr] cannot read:
    it is no object, or its title is there and is no text. *)
Definition malformed_record (v : pyval) : Prop :=
  (forall items, v <> VDict items)
  \/ exists items t,
       v = VDict items /\ lookup (py "title") items = Some t
       /\ forall s, t <> VStr s.





(** A request made with the given headers and a timeout of 10 to some
    endpoint of the given repository; any printed line. *)
Definition addressed_to (headers : headers_t) (org repo : pystr) (e : event) : Prop :=
  match e with
  | Get url h t =>
      h = headers /\ t = 10%Z /\ exists endpoint, url = api_url org repo endpoint
  | _ => True
  end.










(* ------------------------------------------------------------------ *)
(** ** Example worlds *)

Module Scenario.

(** A gateway given by a table of responses; any other URL is a 404. *)
Fixpoint respond (table : list (pystr * http_result)) (url : pystr) : http_result :=
  match table with
  | [] => Response 404 (Some (VDict [(py "message", VStr (py "Not Found"))])) (py "Not Found")
  | (u, r) :: rest => if str_eqb url u then r else respond rest url
  end.

Definition gateway (table : list (pystr * http_result))
    : pystr -> headers_t -> Z -> http_result :=
  fun url _ _ => respond table url.

Definition org : pystr := py "acme".
Definition repo : pystr := py "harmony".
Definition token : pystr := py "ghp_example".
Definition headers : headers_t := _build_headers token.

Definition env : environ :=
  {| GITHUB_RELEASE_TOKEN := Some token; GITHUB_ORG_HARMONY := Some org |}.

Definition ok (endpoint : string) (data : pyval) : pystr * http_result :=
  (api_url org repo (py endpoint), Response 200 (Some data) []).

Definition padding : pystr := repeat 32%N 500.

Definition encoding_rs : pystr :=
  py "FormattingToken::MetaSep => " ++ dquote ++ py "<|meta_sep|>" ++ dquote ++ padding.
Definition registry_rs : pystr :=
  py "(FormattingToken::MetaSep, " ++ dquote ++ py "<|meta_sep|>" ++ dquote ++ py ")" ++
  py "(FormattingToken::MetaEnd, " ++ dquote ++ py "<|meta_end|>" ++ dquote ++ py ")" ++
  padding.
Definition cargo_toml : pystr :=
  py "version = " ++ dquote ++ py "1.1.0" ++ dquote ++ padding.
Definition changelog_md : pystr :=
  py "## [1.1.0] - 2025-08-07 Fixed MetaSep token: MetaSep token mapping bug. " ++
  py "Registry now properly recognizes MetaEnd." ++ padding.

Definition branch_payload (name : string) : pyval := VDict [(py "name", VStr (py name))].

Definition pull (number : Z) (title : string) (merged_at : pyval) (base sha : string)
    : pyval :=
  VDict [ (py "number", VInt number);
          (py "title", VStr (py title));
          (py "merged_at", merged_at);
          (py "base", VDict [(py "ref", VStr (py base))]);
          (py "merge_commit_sha", VStr (py sha)) ].

Definition commit (parents : list string) (message : string) : pyval :=
  VDict [ (py "parents", VList (map (fun p => VDict [(py "sha", VStr (py p))]) parents));
          (py "commit", VDict [(py "message", VStr (py message))]) ].

Definition merged : pyval := VStr (py "2025-08-07T10:00:00Z").

Definition branches : list (pystr * http_result) :=
  [ ok "branches/release-v1.1.0" (branch_payload "release-v1.1.0");
    ok "branches/main" (branch_payload "main") ].

Definition files : list (pystr * http_result) :=
  [ ok "contents/src/encoding.rs?ref=main" (Reference.file_payload encoding_rs);
    ok "contents/src/registry.rs?ref=main" (Reference.file_payload registry_rs);
    ok "contents/Cargo.toml?ref=main" (Reference.file_payload cargo_toml);
    ok "contents/CHANGELOG.md?ref=main" (Reference.file_payload changelog_md) ].

Definition release_pull : pyval := pull 42 "Release v1.1.0" merged "main" "abc123".

Definition listing : list pyval :=
  [ pull 40 "Fix typo" merged "main" "aaa";
    pull 41 "Release v1.1.0 (draft)" VNone "main" "bbb";
    release_pull;
    pull 39 "release V1.1.0 again" merged "main" "ccc" ].

Definition pulls : list (pystr * http_result) :=
  [ ok "pulls?state=closed&base=main&per_page=100"
      (VList listing);
    ok "pulls/42" release_pull ].

(** Scenario A of the specification: everything in order. *)
Definition table_A : list (pystr * http_result) :=
  branches ++ files ++ pulls ++
  [ ok "commits/abc123" (commit ["p1"%string] "Release v1.1.0 (#42)") ].

(** Scenario B: as A, but the merge commit has two parents. *)
Definition table_B : list (pystr * http_result) :=
  branches ++ files ++ pulls ++
  [ ok "commits/abc123" (commit ["p1"%string; "p2"%string] "Release v1.1.0 (#42)") ].

(** Scenario C: the release branch is missing. *)
Definition table_C : list (pystr * http_result) :=
  [ ok "branches/main" (branch_payload "main") ] ++ files ++ pulls ++
  [ ok "commits/abc123" (commit ["p1"%string] "Release v1.1.0 (#42)") ].

Definition items (v : pyval) : list (pystr * pyval) :=
  match v with VDict i => i | _ => [] end.

(** As C, but the query for the release branch ends in a server error. *)
Definition table_C500 : list (pystr * http_result) :=
  (api_url org repo (py "branches/release-v1.1.0"),
   Response 500 None (py "Internal Server Error")) :: table_C.

(** As A, but [Cargo.toml] is an empty file. *)
Definition table_empty_file : list (pystr * http_result) :=
  ok "contents/Cargo.toml?ref=main" (Reference.file_payload []) :: table_A.

(** As A, but the single-resource fetch of the pull request reports
    another base than the listing does. *)
Definition table_moved_base : list (pystr * http_result) :=
  ok "pulls/42" (pull 42 "Release v1.1.0" merged "develop" "abc123") :: table_A.


Definition old_cargo_toml : pystr :=
  py "version = " ++ dquote ++ py "1.0.0" ++ dquote ++ padding.

(** As A, but [Cargo.toml] still carries the previous version. *)
Definition table_old_version : list (pystr * http_result) :=
  ok "contents/Cargo.toml?ref=main" (Reference.file_payload old_cargo_toml) :: table_A.


Definition cargo_rule : CoreFile.t := nth 2 core_files (CoreFile.Build [] [] [] None None None 0).

(** As A, but the path of [Cargo.toml] is a directory: the contents
    endpoint delivers a list. *)
Definition table_directory : list (pystr * http_result) :=
  ok "contents/Cargo.toml?ref=main"
    (VList [VDict [(py "name", VStr (py "Cargo.toml"))]]) :: table_A.

(** As A, but [Cargo.toml] holds the version line and nothing else. *)
Definition short_cargo_toml : pystr :=
  py "version = " ++ dquote ++ py "1.1.0" ++ dquote.

Definition table_short_file : list (pystr * http_result) :=
  ok "contents/Cargo.toml?ref=main" (Reference.file_payload short_cargo_toml) :: table_A.

(** As A, but the listing goes on with things that are no records. *)
Definition table_garbage_tail : list (pystr * http_result) :=
  ok "pulls?state=closed&base=main&per_page=100"
    (VList [pull 40 "Fix typo" merged "main" "aaa"; release_pull; VNone; VInt 7])
  :: table_A.

Definition untitled : pyval :=
  VDict [(py "number", VInt 41); (py "title", VNone); (py "merged_at", merged)].

(** As A, but a record of the listing has a null title. *)
Definition table_null_title : list (pystr * http_result) :=
  ok "pulls?state=closed&base=main&per_page=100"
    (VList [pull 40 "Fix typo" merged "main" "aaa"; untitled; release_pull])
  :: table_A.

(** As A, with a pull request 4 that was merged by the commit of 42. *)
Definition table_pr4 : list (pystr * http_result) :=
  ok "pulls/4" (pull 4 "Hotfix" merged "main" "abc123") :: table_A.

(** As A, but the record of pull request 42 has a null base. *)
Definition table_null_base : list (pystr * http_result) :=
  ok "pulls/42" (VDict [(py "number", VInt 42); (py "base", VNone)]) :: table_A.

(** As A, but the release pull request carries its merge time as a
    number. *)
Definition table_numeric_merged_at : list (pystr * http_result) :=
  ok "pulls?state=closed&base=main&per_page=100"
    (VList [pull 42 "Release v1.1.0" (VInt 1754560800) "main" "abc123"])
  :: table_A.

(** A stdout that writes every line, as one in UTF-8. *)
Definition utf8 : message -> bool := fun _ => true.

(** A stdout that writes every line of the scenarios but the one with
    U+1F389, as one in GBK. *)
Definition gbk : message -> bool :=
  fun m => match m with MAllPassed => false | _ => true end.

Definition run (table : list (pystr * http_result)) (e : environ) : M bool :=
  run_harmony_release_verification Reference.lower Reference.repr
    Reference.b64decode_utf8 (gateway table) e.

End Scenario.

(* ------------------------------------------------------------------ *)
(** ** Text and monad lemmas *)

Arguments py : simpl never.
Arguments api_url : simpl never.
Arguments str_of_int : simpl never.

Lemma startswith_prefix (p s : pystr) :
  startswith p s = true <-> exists post, s = p ++ post.
Proof.
  revert s; induction p as [|x p IH]; intros s; simpl.
  - split; [intros _; now exists s | reflexivity].
  - destruct s as [|y s].
    + split; [discriminate | intros [post H]; discriminate].
    + rewrite andb_true_iff, N.eqb_eq, IH. split.
      * intros [-> [post ->]]. now exists post.
      * intros [post H]. injection H as -> ->. split; [reflexivity | now exists post].
Qed.

Lemma str_in_occurs (sub text : pystr) :
  str_in sub text = true <-> occurs sub text.
Proof.
  unfold occurs. induction text as [|c text IH]; simpl.
  - rewrite startswith_prefix. split.
    + intros [post H]. exists [], post. exact H.
    + intros [pre [post H]]. destruct pre; [now exists post | discriminate].
  - rewrite orb_true_iff, startswith_prefix, IH. split.
    + intros [[post H] | [pre [post H]]].
      * exists [], post. exact H.
      * exists (c :: pre), post. simpl. now rewrite H.
    + intros [[|d pre] [post H]].
      * left. now exists post.
      * right. injection H as _ H. now exists pre, post.
Qed.

Lemma str_in_not_occurs (sub text : pystr) :
  str_in sub text = false <-> ~ occurs sub text.
Proof.
  rewrite <- str_in_occurs. destruct (str_in sub text); split; congruence.
Qed.

Lemma str_eqb_eq (a b : pystr) : str_eqb a b = true <-> a = b.
Proof.
  revert b; induction a as [|x a IH]; intros [|y b]; simpl;
    try (split; [discriminate | discriminate]); try tauto.
  rewrite andb_true_iff, N.eqb_eq, IH. split.
  - now intros [-> ->].
  - intros H; injection H as -> ->; tauto.
Qed.

Lemma str_eqb_refl (a : pystr) : str_eqb a a = true.
Proof. now apply str_eqb_eq. Qed.

Lemma trace_bind {A B} (m : M A) (k : A -> M B) :
  trace (bind m k)
  = trace m ++ match result m with Ok a => trace (k a) | Raise _ => [] end.
Proof.
  destruct m as [t [a|e]]; simpl.
  - destruct (k a); reflexivity.
  - now rewrite app_nil_r.
Qed.

Lemma result_bind {A B} (m : M A) (k : A -> M B) :
  result (bind m k)
  = match result m with Ok a => result (k a) | Raise e => Raise e end.
Proof.
  destruct m as [t [a|e]]; simpl; [destruct (k a)|]; reflexivity.
Qed.

Lemma bind_ok {A B} (t : list event) (a : A) (k : A -> M B) :
  bind (t, Ok a) k = (t ++ trace (k a), result (k a)).
Proof. simpl. destruct (k a); reflexivity. Qed.

Lemma requests_app (t u : list event) : requests (t ++ u) = requests t ++ requests u.
Proof.
  induction t as [|[url h z|m|m] t IH]; simpl; rewrite ?IH; reflexivity.
Qed.

(* ------------------------------------------------------------------ *)
(** ** The gateway call *)

Section Gateway.

Variable requests_get : pystr -> headers_t -> Z -> http_result.

Lemma call_github_api_eq (endpoint : pystr) (headers : headers_t) (org repo : pystr) :
  _call_github_api requests_get endpoint headers org repo
  = (Get (api_url org repo endpoint) headers 10
       :: api_diagnostic requests_get org repo endpoint headers,
     Ok (match fetched requests_get (api_url org repo endpoint) headers with
         | Some data => (true, data)
         | None => (false, VNone)
         end)).
Proof.
  unfold _call_github_api, api_diagnostic, fetched.
  destruct (requests_get (api_url org repo endpoint) headers 10%Z)
    as [status [data|] text|]; simpl;
    try destruct (status =? 200)%Z; try destruct (status =? 404)%Z; reflexivity.
Qed.

Lemma api_diagnostic_requests (endpoint : pystr) (headers : headers_t) (org repo : pystr) :
  requests (api_diagnostic requests_get org repo endpoint headers) = [].
Proof.
  unfold api_diagnostic.
  destruct (requests_get (api_url org repo endpoint) headers 10%Z)
    as [status [data|] text|]; simpl;
    try destruct (status =? 200)%Z; try destruct (status =? 404)%Z; reflexivity.
Qed.

Lemma api_diagnostic_fetched (endpoint : pystr) (headers : headers_t) (org repo : pystr)
    (data : pyval) :
  fetched requests_get (api_url org repo endpoint) headers = Some data ->
  api_diagnostic requests_get org repo endpoint headers = [].
Proof.
  unfold api_diagnostic, fetched.
  destruct (requests_get (api_url org repo endpoint) headers 10%Z)
    as [status [d|] text|]; try discriminate.
  destruct (status =? 200)%Z; [reflexivity | discriminate].
Qed.

End Gateway.

Lemma printed_requests (k : nat) (t : list event) :
  forallb (printed_by k) t = true -> requests t = [].
Proof.
  induction t as [|[url h z|m|m] t IH]; simpl; try discriminate; try reflexivity;
    intros H; apply andb_true_iff in H; now apply IH.
Qed.

Lemma printed_of_step (k : nat) (t : list event) :
  forallb (printed_by k) t = true -> forallb (of_step k) t = true.
Proof.
  induction t as [|e t IH]; [reflexivity|]. cbn [forallb].
  rewrite !andb_true_iff. intros [He Ht]. split; [|now apply IH].
  destruct e; [reflexivity | exact He | exact He].
Qed.

Lemma api_diagnostic_printed (gw : pystr -> headers_t -> Z -> http_result) (k : nat)
    (endpoint : pystr) (headers : headers_t) (org repo : pystr) :
  forallb (printed_by k) (api_diagnostic gw org repo endpoint headers) = true.
Proof.
  unfold api_diagnostic.
  destruct (gw (api_url org repo endpoint) headers 10%Z) as [status [data|] text|];
    simpl; try destruct (status =? 200)%Z; try destruct (status =? 404)%Z;
    simpl; rewrite ?orb_true_r; reflexivity.
Qed.

(** One step of a computation whose value is being traced. *)
Ltac mstep :=
  rewrite result_bind; cbn [lift result snd py_get py_len py_in py_slice_to].

(* ------------------------------------------------------------------ *)
(** ** Merge topology *)

Section MergeTopology.

Variable py_repr : pyval -> pystr.
Variable requests_get : pystr -> headers_t -> Z -> http_result.

(** C1.  When the pull request [n] is fetched with a non-empty
    [merge_commit_sha] and the commit of that sha is fetched, with a list
    of parents and a text message (a missing field counting as no parent,
    as the empty message), [_verify_squash_merge] returns a boolean that
    is true exactly when the commit has one parent and its message
    contains the text ["#<n>"].  A one-parent commit with message
    ["Release v1.1.0 (#42)"] is accepted for PR 42 and rejected for PR 43;
    two or more parents are rejected whatever the message. *)
Theorem squash_merge_one_parent_and_reference
    (n : Z) (headers : headers_t) (org repo : pystr)
    (pr_items commit_items : list (pystr * pyval))
    (sha msg : pystr) (parents : list pyval) :
  fetched requests_get (api_url org repo (py "pulls/" ++ str_of_int n)) headers
    = Some (VDict pr_items) ->
  lookup (py "merge_commit_sha") pr_items = Some (VStr sha) ->
  sha <> [] ->
  fetched requests_get (api_url org repo (py "commits/" ++ sha)) headers
    = Some (VDict commit_items) ->
  commit_items <> [] ->
  parents_of commit_items = Some parents ->
  message_of commit_items = Some msg ->
  let verdict :=
    result (_verify_squash_merge py_repr requests_get (VInt n) headers org repo) in
  (exists b, verdict = Ok b
     /\ (b = true <-> length parents = 1 /\ occurs (py "#" ++ str_of_int n) msg))
  /\ (length parents = 1 -> msg = py "Release v1.1.0 (#42)" ->
      (n = 42%Z -> verdict = Ok true) /\ (n = 43%Z -> verdict = Ok false))
  /\ (2 <= length parents -> verdict = Ok false).
Proof.
  intros Hpr Hsha Hne Hcommit Hitems Hparents Hmsg verdict.
  assert (Hv : verdict
               = Ok ((length parents =? 1) && str_in (py "#" ++ str_of_int n) msg)).
  { unfold verdict, _verify_squash_merge. cbn [py_str].
    rewrite result_bind, call_github_api_eq. cbn [result snd]. rewrite Hpr.
    destruct pr_items as [|kv pr_items']; [discriminate|].
    cbn [truthy negb orb]. mstep. rewrite Hsha.
    destruct sha as [|c sha']; [contradiction|].
    cbn [truthy negb py_str].
    rewrite result_bind, call_github_api_eq. cbn [result snd]. rewrite Hcommit.
    destruct commit_items as [|kv' commit_items']; [contradiction|].
    cbn [truthy negb orb]. mstep.
    assert (Hlen : py_len (match lookup (py "parents") (kv' :: commit_items') with
                           | Some v => v
                           | None => VList []
                           end) = Ok (length parents)).
    { unfold parents_of in Hparents.
      destruct (lookup (py "parents") (kv' :: commit_items')) as [[]|];
        try discriminate; injection Hparents as <-; reflexivity. }
    rewrite Hlen. mstep.
    destruct (length parents =? 1) eqn:Hcount; cbn [negb andb].
    - mstep. unfold message_of in Hmsg.
      destruct (lookup (py "commit") (kv' :: commit_items')) as [[| | | | |commit]|];
        try discriminate; mstep.
      + destruct (lookup (py "message") commit) as [[]|]; try discriminate;
          injection Hmsg as <-; mstep;
          destruct (str_in (py "#" ++ str_of_int n) _); reflexivity.
      + injection Hmsg as <-. cbn [lookup]. mstep.
        destruct (str_in (py "#" ++ str_of_int n) []); reflexivity.
    - rewrite result_bind. reflexivity. }
  clearbody verdict. subst verdict. split; [|split].
  - eexists; split; [reflexivity|].
    rewrite andb_true_iff, Nat.eqb_eq, str_in_occurs. reflexivity.
  - intros Hone ->. rewrite Hone. split; intros ->; reflexivity.
  - intros Htwo. destruct (length parents =? 1) eqn:Hcount; [|reflexivity].
    apply Nat.eqb_eq in Hcount. lia.
Qed.

End MergeTopology.

(* ------------------------------------------------------------------ *)
(** ** Pull-request discovery *)

Section Discovery.

Variable lower : pystr -> pystr.
Variable requests_get : pystr -> headers_t -> Z -> http_result.

Lemma merged_at_present_dec (items : list (pystr * pyval)) :
  merged_at_present items
  <-> negb (is_none (match lookup (py "merged_at") items with
                     | Some v => v
                     | None => VNone
                     end)) = true.
Proof.
  unfold merged_at_present.
  destruct (lookup (py "merged_at") items) as [v|]; simpl.
  - split.
    + intros [w [[= <-] Hw]]. destruct v; try reflexivity. congruence.
    + intros H. exists v. split; [reflexivity|]. intros ->. discriminate.
  - split; [intros [w [[=] _]] | discriminate].
Qed.

Lemma release_candidate_dec (keyword : pystr) (items : list (pystr * pyval)) :
  release_candidate lower keyword (VDict items)
  <-> str_in (lower keyword) (lower (title_of items))
      && negb (is_none (match lookup (py "merged_at") items with
                        | Some v => v
                        | None => VNone
                        end)) = true.
Proof.
  rewrite andb_true_iff, str_in_occurs, <- merged_at_present_dec.
  unfold release_candidate. split.
  - intros [items' [[= <-] H]]. exact H.
  - intros H. now exists items.
Qed.

(** One turn of the loop on a well-formed record: the tested condition. *)
Lemma loop_turn (keyword : pystr) (pr : pyval) (rest : list pyval) :
  pull_request_summary pr ->
  (release_candidate lower keyword pr ->
   find_merged_pr_loop lower keyword (pr :: rest) = ret pr)
  /\ (~ release_candidate lower keyword pr ->
      find_merged_pr_loop lower keyword (pr :: rest)
      = find_merged_pr_loop lower keyword rest).
Proof.
  intros [items [-> Htitle]].
  assert (Ht : py_get (VDict items) (py "title") (VStr []) = Ok (VStr (title_of items))).
  { unfold title_of. cbn [py_get].
    destruct Htitle as [-> | [s ->]]; reflexivity. }
  cbn [find_merged_pr_loop]. rewrite Ht. cbn [lift py_lower py_get bind app].
  pose proof (merged_at_present_dec items) as Hm.
  pose proof (str_in_occurs (lower keyword) (lower (title_of items))) as Ho.
  destruct (find_merged_pr_loop lower keyword rest) as [t r] eqn:Hrest.
  split.
  - intros [items' [[= <-] [Hocc Hmerged]]].
    apply Ho in Hocc. apply Hm in Hmerged. rewrite Hocc, Hmerged. reflexivity.
  - intros Hnot.
    destruct (str_in (lower keyword) (lower (title_of items))) eqn:Hin;
      [|reflexivity].
    destruct (negb (is_none _)) eqn:Hmerged; [|reflexivity].
    exfalso. apply Hnot. exists items. repeat split.
    + now apply Ho.
    + now apply Hm.
Qed.

Lemma loop_first_candidate (keyword : pystr) (pre : list pyval) (pr : pyval)
    (post : list pyval) :
  Forall pull_request_summary (pre ++ [pr]) ->
  Forall (fun p => ~ release_candidate lower keyword p) pre ->
  release_candidate lower keyword pr ->
  find_merged_pr_loop lower keyword (pre ++ pr :: post) = ret pr.
Proof.
  induction pre as [|p pre IH]; intros Hwf Hpre Hpr.
  - apply loop_turn; [now inversion Hwf | exact Hpr].
  - inversion Hwf; subst. inversion Hpre; subst.
    change ((p :: pre) ++ pr :: post) with (p :: (pre ++ pr :: post)).
    rewrite (proj2 (loop_turn keyword p _ H1)) by assumption.
    now apply IH.
Qed.

Lemma loop_no_candidate (keyword : pystr) (prs : list pyval) :
  Forall pull_request_summary prs ->
  Forall (fun p => ~ release_candidate lower keyword p) prs ->
  find_merged_pr_loop lower keyword prs = ret VNone.
Proof.
  induction prs as [|p prs IH]; intros Hwf Hnone; [reflexivity|].
  inversion Hwf; subst. inversion Hnone; subst.
  rewrite (proj2 (loop_turn keyword p _ H1)) by assumption.
  now apply IH.
Qed.

(** C3.  On a listing of pull-request records, [_find_merged_pr] returns
    the first record, in the order of the listing, that is merged and
    whose title contains the keyword with letter case ignored; it returns
    [None] when no record is such. *)
Theorem find_merged_pr_first_match
    (keyword base_branch : pystr) (headers : headers_t) (org repo : pystr)
    (prs : list pyval) :
  fetched requests_get
    (api_url org repo
       (py "pulls?state=closed&base=" ++ base_branch ++ py "&per_page=100"))
    headers = Some (VList prs) ->
  Forall pull_request_summary prs ->
  let found :=
    result (_find_merged_pr lower requests_get keyword base_branch headers org repo) in
  (forall pre pr post,
      prs = pre ++ pr :: post ->
      release_candidate lower keyword pr ->
      Forall (fun p => ~ release_candidate lower keyword p) pre ->
      found = Ok pr)
  /\ (Forall (fun p => ~ release_candidate lower keyword p) prs -> found = Ok VNone).
Proof.
  intros Hfetch Hwf found.
  assert (Hfound : found = result (find_merged_pr_loop lower keyword prs)).
  { unfold found, _find_merged_pr.
    rewrite result_bind, call_github_api_eq. cbn [result snd].
    rewrite Hfetch. reflexivity. }
  rewrite Hfound. split.
  - intros pre pr post -> Hpr Hpre.
    rewrite loop_first_candidate; [reflexivity | | assumption | assumption].
    rewrite Forall_app in Hwf. destruct Hwf as [Hwf1 Hwf2].
    apply Forall_app. split; [assumption|].
    constructor; [now inversion Hwf2 | constructor].
  - intros Hnone. now rewrite loop_no_candidate.
Qed.

End Discovery.

(* ------------------------------------------------------------------ *)
(** ** Content rules *)

Lemma filter_negb_nil {A} (p : A -> bool) (l : list A) :
  filter (fun x => negb (p x)) l = [] <-> forallb p l = true.
Proof.
  induction l as [|x l IH]; simpl; [tauto|].
  destruct (p x); simpl; [exact IH | split; discriminate].
Qed.

Lemma forallb_str_in (l : list pystr) (text : pystr) :
  forallb (fun s => str_in s text) l = true <-> forall s, In s l -> occurs s text.
Proof.
  rewrite forallb_forall. split; intros H s Hs; apply str_in_occurs, H, Hs.
Qed.

Lemma check_content_eq (file : CoreFile.t) (text : pystr) :
  exists t, check_content file text
            = (t, Ok (forallb (fun s => str_in s text) (required_strings file)))
            /\ forallb (printed_by 3) t = true.
Proof.
  unfold check_content, required_strings.
  destruct (CoreFile.required_content file) as [s|].
  { simpl. destruct (str_in s text); simpl; eexists; split; reflexivity. }
  destruct (CoreFile.required_contents file) as [l|].
  { pose proof (filter_negb_nil (fun s => str_in s text) l) as H.
    destruct (filter _ l) as [|m ms].
    - rewrite (proj1 H eq_refl). eexists; split; reflexivity.
    - destruct (forallb _ l); [destruct H as [_ H]; discriminate (H eq_refl)|].
      eexists; split; reflexivity. }
  destruct (CoreFile.required_keywords file) as [l|].
  { pose proof (filter_negb_nil (fun s => str_in s text) l) as H.
    destruct (filter _ l) as [|m ms].
    - rewrite (proj1 H eq_refl). eexists; split; reflexivity.
    - destruct (forallb _ l); [destruct H as [_ H]; discriminate (H eq_refl)|].
      eexists; split; reflexivity. }
  eexists; split; reflexivity.
Qed.

Lemma check_content_result (file : CoreFile.t) (text : pystr) :
  result (check_content file text)
  = Ok (forallb (fun s => str_in s text) (required_strings file)).
Proof. destruct (check_content_eq file text) as [t [-> _]]. reflexivity. Qed.

(** C5.  Each of the three shapes of content requirement is met exactly
    when every string it lists occurs verbatim in the file text: matching
    compares characters as they are, with no case folding.  A text holding
    ["MetaSep token mapping bug"] meets that keyword and fails the same
    keyword written in lower case. *)
Theorem content_matching_verbatim
    (name path branch : pystr) (min_size : Z) (text s : pystr) (l : list pystr)
    (contents keywords : option (list pystr)) :
  (result (check_content
             (CoreFile.Build name path branch (Some s) contents keywords min_size) text)
   = Ok true <-> occurs s text)
  /\ (result (check_content
                (CoreFile.Build name path branch None (Some l) keywords min_size) text)
      = Ok true <-> forall r, In r l -> occurs r text)
  /\ (result (check_content
                (CoreFile.Build name path branch None None (Some l) min_size) text)
      = Ok true <-> forall r, In r l -> occurs r text)
  /\ result (check_content
               (CoreFile.Build name path branch None None
                  (Some [py "MetaSep token mapping bug"]) min_size)
               (py "MetaSep token mapping bug"))
     = Ok true
  /\ result (check_content
               (CoreFile.Build name path branch None None
                  (Some [py "metasep token mapping bug"]) min_size)
               (py "MetaSep token mapping bug"))
     = Ok false.
Proof.
  rewrite !check_content_result. unfold required_strings. cbn [CoreFile.required_content
    CoreFile.required_contents CoreFile.required_keywords forallb].
  rewrite andb_true_r. repeat split.
  - intros [= H]. now apply str_in_occurs.
  - intros H. f_equal. now apply str_in_occurs.
  - intros [= H]. now apply forallb_str_in.
  - intros H. f_equal. now apply forallb_str_in.
  - intros [= H]. now apply forallb_str_in.
  - intros H. f_equal. now apply forallb_str_in.
Qed.

(* ------------------------------------------------------------------ *)
(** ** File integrity *)

Lemma text_meets_rule_dec (file : CoreFile.t) (content : option pystr) :
  text_meets_rule_b file content = true
  <-> exists text, content = Some text /\ text_meets_rule file text.
Proof.
  unfold text_meets_rule, text_meets_rule_b.
  destruct content as [[|c text]|].
  - split; [discriminate | intros [t [[= <-] [H _]]]; now destruct H].
  - rewrite andb_true_iff, negb_true_iff, Z.ltb_ge, forallb_str_in. split.
    + intros [Hsize Hall]. exists (c :: text). repeat split; try assumption.
      discriminate.
    + intros [t [[= <-] [_ [Hsize Hall]]]]. split; assumption.
  - split; [discriminate | intros [t [[=] _]]].
Qed.

(** What [_get_file_content] does is decided by the response for its URL. *)
Lemma get_file_content_local (b64decode_utf8 : pystr -> option pystr)
    (gw gw' : pystr -> headers_t -> Z -> http_result)
    (file_path branch : pystr) (headers : headers_t) (org repo : pystr) :
  gw (api_url org repo (py "contents/" ++ file_path ++ py "?ref=" ++ branch)) headers 10%Z
  = gw' (api_url org repo (py "contents/" ++ file_path ++ py "?ref=" ++ branch)) headers 10%Z ->
  _get_file_content b64decode_utf8 gw file_path branch headers org repo
  = _get_file_content b64decode_utf8 gw' file_path branch headers org repo.
Proof.
  intros H. unfold _get_file_content, _call_github_api. now rewrite H.
Qed.

Section FileIntegrity.

Variable b64decode_utf8 : pystr -> option pystr.
Variable requests_get : pystr -> headers_t -> Z -> http_result.
Variable headers : headers_t.
Variables org repo : pystr.

Local Abbreviation get_file_content file :=
  (_get_file_content b64decode_utf8 requests_get
     (CoreFile.path file) (CoreFile.branch file) headers org repo).
Local Abbreviation check file all_passed :=
  (check_core_file b64decode_utf8 requests_get file all_passed headers org repo).

(** Fetching a file never raises and makes exactly one request. *)
Lemma get_file_content_eq (file_path branch : pystr) :
  exists t content,
    _get_file_content b64decode_utf8 requests_get file_path branch headers org repo
    = (Get (api_url org repo (py "contents/" ++ file_path ++ py "?ref=" ++ branch))
         headers 10 :: t, Ok content)
    /\ forallb (printed_by 3) t = true.
Proof.
  unfold _get_file_content. rewrite call_github_api_eq, bind_ok.
  pose proof (api_diagnostic_printed requests_get 3
                (py "contents/" ++ file_path ++ py "?ref=" ++ branch) headers org repo)
    as Hdiag.
  destruct (fetched requests_get _ headers) as [data|]; cbn [negb orb].
  2:{ do 2 eexists. split; [reflexivity|]. now rewrite forallb_app, Hdiag. }
  destruct (truthy data); cbn [negb].
  2:{ do 2 eexists. split; [reflexivity|]. now rewrite forallb_app, Hdiag. }
  assert (Hbody : exists t content,
             try_except
               (content <- lift (py_get data (py "content") (VStr []));;
                base64_content <- lift (py_strip_newlines content);;
                text <- lift (py_b64decode_utf8 b64decode_utf8 base64_content);;
                ret (Some text))
               (eprint (MFileDecodeError file_path);; ret None)
             = (t, Ok content) /\ forallb (printed_by 3) t = true).
  { destruct (py_get data (py "content") (VStr [])) as [content|e];
      [|do 2 eexists; split; reflexivity].
    destruct (py_strip_newlines content) as [stripped|e] eqn:Hstrip;
      [|cbn; rewrite Hstrip; do 2 eexists; split; reflexivity].
    destruct (py_b64decode_utf8 b64decode_utf8 stripped) as [text|e] eqn:Hdec;
      cbn; rewrite Hstrip; cbn; rewrite Hdec; do 2 eexists; split; reflexivity. }
  destruct Hbody as [t [content [-> Ht]]].
  do 2 eexists. split; [reflexivity|]. cbn [trace fst result snd].
  now rewrite forallb_app, Hdiag, Ht.
Qed.

(** One turn of the loop: its verdict, and that its events do not depend
    on the verdicts before it. *)
Lemma check_core_file_eq (file : CoreFile.t) (all_passed : bool) :
  exists t,
    check file all_passed
    = (t, Ok (all_passed
              && text_meets_rule_b file (match result (get_file_content file) with
                                         | Ok content => content
                                         | Raise _ => None
                                         end)))
    /\ trace (check file true) = t
    /\ requests t = [content_url org repo file]
    /\ forallb (of_step 3) t = true.
Proof.
  unfold check_core_file.
  destruct (get_file_content_eq (CoreFile.path file) (CoreFile.branch file))
    as [t [content [-> Ht]]].
  pose proof (printed_requests _ _ Ht) as Hreq.
  pose proof (printed_of_step _ _ Ht) as Hstep.
  cbn [result snd]. unfold print, eprint, emit, ret.
  destruct content as [[|c text]|]; cbn [bind app text_meets_rule_b].
  - rewrite andb_false_r. eexists. split; [reflexivity|]. split; [reflexivity|].
    cbn. now rewrite requests_app, forallb_app, Hreq, Hstep.
  - destruct (check_content_eq file (c :: text)) as [t' [Hc Ht']].
    pose proof (printed_requests _ _ Ht') as Hreq'.
    pose proof (printed_of_step _ _ Ht') as Hstep'.
    destruct (Z.of_nat (length (c :: text)) <? CoreFile.min_size file)%Z;
      cbn [negb andb bind app].
    + rewrite andb_false_r. eexists. split; [reflexivity|]. split; [reflexivity|].
      cbn. now rewrite requests_app, forallb_app, Hreq, Hstep.
    + rewrite Hc. cbn [bind].
      destruct (forallb _ (required_strings file)); cbn [negb andb].
      * rewrite andb_true_r. eexists. split; [reflexivity|]. split; [reflexivity|].
        cbn. rewrite !requests_app, !forallb_app, Hreq, Hreq', Hstep, Hstep'.
        split; reflexivity.
      * rewrite andb_false_r. eexists. split; [reflexivity|]. split; [reflexivity|].
        cbn. rewrite !requests_app, !forallb_app, Hreq, Hreq', Hstep, Hstep'.
        split; reflexivity.
  - rewrite andb_false_r. eexists. split; [reflexivity|]. split; [reflexivity|].
    cbn. now rewrite requests_app, forallb_app, Hreq, Hstep.
Qed.

Lemma core_files_loop_eq (files : list CoreFile.t) (all_passed : bool) :
  core_files_loop b64decode_utf8 requests_get files all_passed headers org repo
  = (flat_map (fun file => trace (check file true)) files,
     Ok (all_passed
         && forallb (fun file =>
                       text_meets_rule_b file
                         (match result (get_file_content file) with
                          | Ok content => content
                          | Raise _ => None
                          end)) files)).
Proof.
  revert all_passed. induction files as [|file files IH]; intros all_passed.
  - cbn. now rewrite andb_true_r.
  - cbn [core_files_loop flat_map forallb].
    destruct (check_core_file_eq file all_passed) as [t [-> [-> _]]].
    rewrite bind_ok, IH. cbn [trace fst result snd]. now rewrite andb_assoc.
Qed.

Lemma rule_satisfied_dec (file : CoreFile.t) :
  text_meets_rule_b file (match result (get_file_content file) with
                          | Ok content => content
                          | Raise _ => None
                          end) = true
  <-> rule_satisfied b64decode_utf8 requests_get headers org repo file.
Proof.
  unfold rule_satisfied. rewrite text_meets_rule_dec.
  destruct (get_file_content_eq (CoreFile.path file) (CoreFile.branch file))
    as [t [content [-> _]]].
  cbn [result snd]. split; intros [text [H1 H2]]; exists text; split;
    congruence.
Qed.

Lemma verify_core_files_eq :
  let ok := fun file =>
              text_meets_rule_b file (match result (get_file_content file) with
                                      | Ok content => content
                                      | Raise _ => None
                                      end) in
  _verify_core_files b64decode_utf8 requests_get headers org repo
  = (Stdout MStep3
       :: flat_map (fun file => trace (check file true)) core_files
       ++ [if forallb ok core_files then Stdout MAllFilesOk else Stderr MFilesFailed],
     Ok (forallb ok core_files)).
Proof.
  intros ok. unfold _verify_core_files. rewrite core_files_loop_eq.
  fold ok. cbn [andb]. unfold print, eprint, emit, ret. cbn [bind app].
  destruct (forallb ok core_files); reflexivity.
Qed.



Lemma turns_requests (files : list CoreFile.t) :
  requests (flat_map (fun file => trace (check file true)) files)
  = map (content_url org repo) files.
Proof.
  induction files as [|file files IH]; [reflexivity|].
  cbn [flat_map map]. rewrite requests_app, IH.
  destruct (check_core_file_eq file true) as [t [_ [-> [-> _]]]]. reflexivity.
Qed.

(** C4.  [_verify_core_files] goes through the four rules of
    [core_files] in their order, whatever the earlier rules gave: its
    events are those of the four turns one after the other, its requests
    the four content URLs.  It returns true exactly when every rule is
    satisfied (file delivered, long enough, every required string
    present).  A required string missing from a delivered file fails that
    rule and the step; as the four URLs differ and a rule's verdict
    depends on the response for its own URL only, no other rule is
    affected. *)
Theorem file_integrity_all_rules :
  let step := _verify_core_files b64decode_utf8 requests_get headers org repo in
  let satisfied := rule_satisfied b64decode_utf8 requests_get headers org repo in
  (exists b,
      result step = Ok b
      /\ trace step
         = Stdout MStep3
             :: flat_map (fun file => trace (check file true)) core_files
             ++ [if b then Stdout MAllFilesOk else Stderr MFilesFailed]
      /\ (b = true <-> Forall satisfied core_files))
  /\ requests (trace step) = map (content_url org repo) core_files
  /\ NoDup (map (content_url org repo) core_files)
  /\ (forall file, In file core_files ->
        (result (check file true) = Ok true <-> satisfied file))
  /\ (forall file s text,
        In file core_files -> In s (required_strings file) ->
        result (get_file_content file) = Ok (Some text) ->
        ~ occurs s text ->
        ~ satisfied file /\ result step = Ok false)
  /\ (forall requests_get' file,
        requests_get' (content_url org repo file) headers 10%Z
        = requests_get (content_url org repo file) headers 10%Z ->
        (rule_satisfied b64decode_utf8 requests_get' headers org repo file
         <-> satisfied file)).
Proof.
  intros step satisfied.
  set (ok := fun file =>
               text_meets_rule_b file (match result (get_file_content file) with
                                       | Ok content => content
                                       | Raise _ => None
                                       end)).
  assert (Hstep : step
                  = (Stdout MStep3
                       :: flat_map (fun file => trace (check file true)) core_files
                       ++ [if forallb ok core_files
                           then Stdout MAllFilesOk else Stderr MFilesFailed],
                     Ok (forallb ok core_files))).
  { exact verify_core_files_eq. }
  assert (Hall : forallb ok core_files = true <-> Forall satisfied core_files).
  { rewrite forallb_forall, Forall_forall.
    split; intros H file Hin; apply rule_satisfied_dec, H, Hin. }
  split; [|split; [|split; [|split; [|split]]]].
  - exists (forallb ok core_files). rewrite Hstep. cbn [result trace fst snd].
    split; [reflexivity|]. split; [reflexivity|]. exact Hall.
  - rewrite Hstep. cbn [trace fst requests]. rewrite requests_app.
    replace (requests [if forallb ok core_files
                       then Stdout MAllFilesOk else Stderr MFilesFailed])
      with (@nil pystr) by (destruct (forallb ok core_files); reflexivity).
    rewrite app_nil_r. apply turns_requests.
  - unfold content_url.
    assert (Hinj : forall e e', api_url org repo e = api_url org repo e' -> e = e').
    { unfold api_url. intros e e' H.
      repeat (apply app_inv_head in H). exact H. }
    repeat constructor; cbn [In map core_files];
      intros H; repeat (destruct H as [H | H]; [apply Hinj in H; vm_compute in H; discriminate|]);
      exact H.
  - intros file _. unfold satisfied. rewrite <- rule_satisfied_dec.
    destruct (check_core_file_eq file true) as [t [-> _]].
    cbn [result snd andb]. split; [now intros [= ->] | now intros ->].
  - intros file s text Hin Hs Hget Hnot.
    assert (Hfile : ~ satisfied file).
    { intros [text' [Hget' [_ [_ Hocc]]]].
      rewrite Hget in Hget'. injection Hget' as <-. exact (Hnot (Hocc s Hs)). }
    split; [exact Hfile|].
    rewrite Hstep. cbn [result snd]. f_equal.
    destruct (forallb ok core_files) eqn:Hb; [|reflexivity].
    exfalso. apply Hfile. destruct Hall as [Hall _]. specialize (Hall eq_refl).
    rewrite Forall_forall in Hall. exact (Hall file Hin).
  - intros requests_get' file Hsame. unfold satisfied, rule_satisfied.
    rewrite (get_file_content_local b64decode_utf8 requests_get' requests_get
               (CoreFile.path file) (CoreFile.branch file) headers org repo Hsame).
    reflexivity.
Qed.

(** C9.  A file whose decoded content is the empty string goes the way of
    a file that could not be fetched: the turn prints the one line "not
    found or unreadable" and fails, and neither the size nor the content
    of the file is looked at, whatever the rule asks for. *)
Theorem empty_content_is_unreadable
    (file : CoreFile.t) (all_passed : bool) (content : option pystr) :
  result (get_file_content file) = Ok content ->
  content = None \/ content = Some [] ->
  check file all_passed
  = (Stdout (MFileChecking (CoreFile.name file) (CoreFile.path file)
               (CoreFile.branch file))
       :: trace (get_file_content file)
       ++ [Stderr (MFileUnreadable (CoreFile.name file))],
     Ok false).
Proof.
  intros Hget Hcontent. unfold check_core_file.
  destruct (get_file_content file) as [t r]. cbn [result snd] in Hget. subst r.
  cbn [trace fst]. destruct Hcontent as [-> | ->]; reflexivity.
Qed.

End FileIntegrity.

(* ------------------------------------------------------------------ *)
(** ** Branch check *)

Lemma without_api_diagnostics_app (t u : list event) :
  without_api_diagnostics (t ++ u)
  = without_api_diagnostics t ++ without_api_diagnostics u.
Proof. apply filter_app. Qed.

Lemma api_diagnostic_erased (gw : pystr -> headers_t -> Z -> http_result)
    (org repo endpoint : pystr) (headers : headers_t) :
  without_api_diagnostics (api_diagnostic gw org repo endpoint headers) = [].
Proof.
  unfold api_diagnostic.
  destruct (gw (api_url org repo endpoint) headers 10%Z) as [status [data|] text|];
    simpl; try destruct (status =? 200)%Z; try destruct (status =? 404)%Z; reflexivity.
Qed.

Section Branches.

Variable requests_get : pystr -> headers_t -> Z -> http_result.
Variable headers : headers_t.
Variables org repo : pystr.

Local Abbreviation exists_ name := (branch_exists requests_get headers org repo (py name)).
Local Abbreviation query name :=
  (Get (api_url org repo (py "branches/" ++ py name)) headers 10
     :: api_diagnostic requests_get org repo (py "branches/" ++ py name) headers).

Lemma check_branch_exists_eq (name : string) :
  _check_branch_exists requests_get (py name) headers org repo
  = (query name, Ok (exists_ name)).
Proof.
  unfold _check_branch_exists, branch_exists.
  rewrite call_github_api_eq, bind_ok.
  destruct (fetched requests_get _ headers); cbn [trace result fst snd ret];
    now rewrite app_nil_r.
Qed.

Lemma verify_branches_eq :
  _verify_branches requests_get headers org repo
  = (Stdout MStep2
       :: query "release-v1.1.0"
       ++ (if exists_ "release-v1.1.0" then
             query "main"
             ++ [if exists_ "main"
                 then Stdout (MBranchesOk (py "release-v1.1.0") (py "main"))
                 else Stderr (MBaseBranchMissing (py "main"))]
           else [Stderr (MReleaseBranchMissing (py "release-v1.1.0"))]),
     Ok (exists_ "release-v1.1.0" && exists_ "main")).
Proof.
  unfold _verify_branches. rewrite !check_branch_exists_eq.
  unfold print, eprint, emit, ret. cbn [bind app].
  destruct (exists_ "release-v1.1.0"); cbn [negb andb]; [|reflexivity].
  destruct (exists_ "main"); reflexivity.
Qed.

End Branches.

(** C6.  [_verify_branches] returns a boolean that is true exactly when the
    query for the release branch and the query for the base branch both
    succeed.  How a query fails (404, another status, an exception) does
    not reach the check: two gateways that succeed on the same queries give
    the same boolean and, the lines printed by [_call_github_api] apart,
    the same events. *)
Theorem branch_check_both_exist
    (requests_get : pystr -> headers_t -> Z -> http_result)
    (headers : headers_t) (org repo : pystr) :
  (exists b,
      result (_verify_branches requests_get headers org repo) = Ok b
      /\ (b = true <->
          branch_exists requests_get headers org repo (py "release-v1.1.0") = true
          /\ branch_exists requests_get headers org repo (py "main") = true))
  /\ (forall requests_get',
        same_successes requests_get requests_get' headers ->
        result (_verify_branches requests_get headers org repo)
        = result (_verify_branches requests_get' headers org repo)
        /\ without_api_diagnostics (trace (_verify_branches requests_get headers org repo))
           = without_api_diagnostics (trace (_verify_branches requests_get' headers org repo))).
Proof.
  split.
  - rewrite verify_branches_eq. eexists. split; [reflexivity|].
    apply andb_true_iff.
  - intros gw' Hsame.
    assert (Hex : forall name,
               branch_exists requests_get headers org repo name
               = branch_exists gw' headers org repo name).
    { intros name. unfold branch_exists.
      specialize (Hsame (api_url org repo (py "branches/" ++ name))).
      destruct (fetched requests_get _ headers), (fetched gw' _ headers);
        solve [reflexivity | contradiction]. }
    rewrite !verify_branches_eq, !Hex. cbn [result trace fst snd].
    split; [reflexivity|].
    cbn [without_api_diagnostics filter is_api_diagnostic negb].
    fold (without_api_diagnostics).
    destruct (branch_exists gw' headers org repo (py "release-v1.1.0"));
      [destruct (branch_exists gw' headers org repo (py "main"))|];
      cbn [app filter is_api_diagnostic negb];
      repeat (rewrite ?without_api_diagnostics_app, ?api_diagnostic_erased;
              cbn [without_api_diagnostics app filter is_api_diagnostic negb]);
      reflexivity.
Qed.

(* ------------------------------------------------------------------ *)
(** ** Merge target *)

Section MergeTarget.

Variable py_repr : pyval -> pystr.
Variable requests_get : pystr -> headers_t -> Z -> http_result.
Variable pr_number : pyval.
Variable headers : headers_t.
Variables org repo : pystr.

Local Abbreviation step :=
  (_verify_pr_merge_target py_repr requests_get pr_number headers org repo).
Local Abbreviation url := (api_url org repo (py "pulls/" ++ py_str py_repr pr_number)).

Lemma verify_pr_merge_target_eq :
  step
  = (Stdout MStep5 :: Get url headers 10
       :: api_diagnostic requests_get org repo
            (py "pulls/" ++ py_str py_repr pr_number) headers
       ++ fst (merge_target_verdict pr_number (fetched requests_get url headers)),
     snd (merge_target_verdict pr_number (fetched requests_get url headers))).
Proof.
  unfold _verify_pr_merge_target, merge_target_verdict, base_ref_of.
  rewrite call_github_api_eq. unfold print, eprint, emit, ret, lift.
  destruct (fetched requests_get url headers) as [pr_detail|]; [|reflexivity].
  cbn [bind app negb orb].
  destruct (truthy pr_detail); cbn [negb bind app]; [|reflexivity].
  destruct (py_get pr_detail (py "base") (VDict [])) as [base|e];
    [|reflexivity].
  cbn [bind app].
  destruct (py_get base (py "ref") VNone) as [actual|e]; [|reflexivity].
  cbn [bind app].
  destruct (py_ne_str actual (py "main")); reflexivity.
Qed.

Lemma py_ne_str_false (v : pyval) (s : pystr) :
  py_ne_str v s = false <-> v = VStr s.
Proof.
  unfold py_ne_str, is_str. destruct v; try (split; discriminate).
  rewrite negb_false_iff, str_eqb_eq. split; [now intros <- | now intros [= <-]].
Qed.

(** C7.  [_verify_pr_merge_target] makes one request, for the single
    pull request of the given number, and returns true exactly when that
    request delivers a record whose [base.ref] is the text ["main"].  When
    the record names another base, the check returns false and prints a
    line that carries both the actual and the expected branch. *)
Theorem merge_target_refetched_and_compared :
  requests (trace step) = [url]
  /\ (result step = Ok true <->
      exists pr_detail,
        fetched requests_get url headers = Some pr_detail
        /\ truthy pr_detail = true
        /\ base_ref_of pr_detail = Ok (VStr (py "main")))
  /\ (forall pr_detail actual,
        fetched requests_get url headers = Some pr_detail ->
        truthy pr_detail = true ->
        base_ref_of pr_detail = Ok actual ->
        actual <> VStr (py "main") ->
        result step = Ok false
        /\ In (Stderr (MMergeTargetMismatch pr_number actual (py "main"))) (trace step)).
Proof.
  rewrite verify_pr_merge_target_eq. cbn [trace result fst snd].
  split; [|split].
  - cbn [requests]. rewrite requests_app, api_diagnostic_requests.
    cbn [app]. f_equal. unfold merge_target_verdict.
    destruct (fetched requests_get url headers) as [d|]; [|reflexivity].
    destruct (truthy d); [|reflexivity].
    destruct (base_ref_of d) as [actual|e]; [|reflexivity].
    destruct (py_ne_str actual (py "main")); reflexivity.
  - unfold merge_target_verdict.
    destruct (fetched requests_get url headers) as [d|].
    2:{ split; [discriminate | intros [d [[=] _]]]. }
    destruct (truthy d) eqn:Htruthy.
    2:{ split; [discriminate | intros [d' [[= <-] [H _]]]; congruence]. }
    destruct (base_ref_of d) as [actual|e] eqn:Href.
    2:{ split; [discriminate | intros [d' [[= <-] [_ H]]]; congruence]. }
    destruct (py_ne_str actual (py "main")) eqn:Hcmp; cbn [snd].
    + split; [discriminate|]. intros [d' [[= <-] [_ H]]].
      rewrite Href in H. injection H as ->.
      rewrite (proj2 (py_ne_str_false _ _) eq_refl) in Hcmp. discriminate.
    + apply py_ne_str_false in Hcmp. subst actual.
      split; [intros _; now exists d | reflexivity].
  - intros d actual Hfetch Htruthy Href Hactual.
    unfold merge_target_verdict. rewrite Hfetch, Htruthy, Href.
    destruct (py_ne_str actual (py "main")) eqn:Hcmp.
    + split; [reflexivity|]. right. right. apply in_or_app. right. now left.
    + apply py_ne_str_false in Hcmp. contradiction.
Qed.

End MergeTarget.

(* ------------------------------------------------------------------ *)
(** ** The pipeline *)

Lemma trace_bind_ok {A B} (m : M A) (k : A -> M B) (a : A) :
  result m = Ok a -> trace (bind m k) = trace m ++ trace (k a).
Proof. intros H. now rewrite trace_bind, H. Qed.

Lemma result_bind_ok {A B} (m : M A) (k : A -> M B) (a : A) :
  result m = Ok a -> result (bind m k) = result (k a).
Proof. intros H. now rewrite result_bind, H. Qed.


Lemma result_bind_raise {A B} (m : M A) (k : A -> M B) (e : exn) :
  result m = Raise e -> result (bind m k) = Raise e.
Proof. intros H. now rewrite result_bind, H. Qed.

Lemma trace_print {B} (m : message) (k : unit -> M B) :
  trace (bind (print m) k) = Stdout m :: trace (k tt).
Proof. now rewrite trace_bind. Qed.

Lemma result_print {B} (m : message) (k : unit -> M B) :
  result (bind (print m) k) = result (k tt).
Proof. now rewrite result_bind. Qed.

Lemma verify_environment_cases (e : environ) :
  (configuration_absent e
   /\ result (_verify_environment e) = Ok (None, None)
   /\ requests (trace (_verify_environment e)) = [])
  \/ (exists token org,
        GITHUB_RELEASE_TOKEN e = Some token /\ token <> []
        /\ GITHUB_ORG_HARMONY e = Some org /\ org <> []
        /\ _verify_environment e
           = ([Stdout MStep1; Stdout (MEnvReady org)],
              Ok (Some org, Some (_build_headers token)))).
Proof.
  unfold _verify_environment, _load_env, configuration_absent.
  destruct (GITHUB_RELEASE_TOKEN e) as [[|c token]|];
    [left; repeat split; tauto | | left; repeat split; tauto].
  destruct (GITHUB_ORG_HARMONY e) as [[|d org]|];
    [left; repeat split; tauto | | left; repeat split; tauto].
  right. exists (c :: token), (d :: org). repeat split; discriminate.
Qed.

(** Take the step whose value is [H] and go on with the rest of the run. *)
Ltac advance H :=
  rewrite (trace_bind_ok _ _ _ H), (result_bind_ok _ _ _ H); cbn [negb].

Section Pipeline.

Variable lower : pystr -> pystr.
Variable py_repr : pyval -> pystr.
Variable b64decode_utf8 : pystr -> option pystr.
Variable requests_get : pystr -> headers_t -> Z -> http_result.
Variable os_environ : environ.

Local Abbreviation harmony := (py "harmony").
Local Abbreviation environment := (_verify_environment os_environ).
Local Abbreviation branches h o := (_verify_branches requests_get h o harmony).
Local Abbreviation files h o :=
  (_verify_core_files b64decode_utf8 requests_get h o harmony).
Local Abbreviation release_pr h o :=
  (_verify_release_pr lower requests_get h o harmony).
Local Abbreviation merge_target n h o :=
  (_verify_pr_merge_target py_repr requests_get n h o harmony).
Local Abbreviation merge_method n h o :=
  (_verify_merge_method py_repr requests_get n h o harmony).
Local Abbreviation run :=
  (run_harmony_release_verification lower py_repr b64decode_utf8 requests_get
     os_environ).
Local Abbreviation release_branch_url o :=
  (api_url o harmony (py "branches/" ++ py "release-v1.1.0")).

(** The run up to the environment check. *)
Lemma run_start (v : option pystr * option headers_t) :
  result environment = Ok v ->
  environment_ready v = false ->
  trace run = prelude ++ trace environment /\ result run = Ok false.
Proof.
  intros Henv Hnot. unfold run_harmony_release_verification.
  rewrite !trace_print, !result_print.
  rewrite (trace_bind_ok _ _ _ Henv), (result_bind_ok _ _ _ Henv).
  destruct v as [[[|c o]|] [[|x h]|]]; try discriminate Hnot;
    cbn [trace result fst snd ret app prelude]; now rewrite app_nil_r.
Qed.

(** C2.  The run stops at the first step that does not pass: it returns
    false and its events are the three opening lines followed by the
    events of the steps up to and including that one, of no later step.
    When the release branch is missing, the run makes the one request for
    that branch and nothing of the file, discovery, merge-target and
    merge-method checks happens. *)
Theorem pipeline_fail_fast :
  (forall v,
      result environment = Ok v -> environment_ready v = false ->
      trace run = prelude ++ trace environment /\ result run = Ok false)
  /\ (forall org hdrs,
        result environment = Ok (Some org, Some hdrs) ->
        org <> [] -> hdrs <> [] ->
        let t1 := prelude ++ trace environment in
        let t2 := t1 ++ trace (branches hdrs org) in
        let t3 := t2 ++ trace (files hdrs org) in
        let t4 := t3 ++ trace (release_pr hdrs org) in
        (result (branches hdrs org) = Ok false ->
         trace run = t2 /\ result run = Ok false)
        /\ (result (branches hdrs org) = Ok true ->
            result (files hdrs org) = Ok false ->
            trace run = t3 /\ result run = Ok false)
        /\ (forall n,
              result (branches hdrs org) = Ok true ->
              result (files hdrs org) = Ok true ->
              result (release_pr hdrs org) = Ok n ->
              (truthy n = false -> trace run = t4 /\ result run = Ok false)
              /\ (truthy n = true ->
                  result (merge_target n hdrs org) = Ok false ->
                  trace run = t4 ++ trace (merge_target n hdrs org)
                  /\ result run = Ok false)
              /\ (truthy n = true ->
                  result (merge_target n hdrs org) = Ok true ->
                  result (merge_method n hdrs org) = Ok false ->
                  trace run
                  = t4 ++ trace (merge_target n hdrs org)
                       ++ trace (merge_method n hdrs org)
                  /\ result run = Ok false))
        /\ (branch_exists requests_get hdrs org harmony (py "release-v1.1.0") = false ->
            trace run
            = t1 ++ Stdout MStep2
                 :: Get (release_branch_url org) hdrs 10
                 :: api_diagnostic requests_get org harmony
                      (py "branches/" ++ py "release-v1.1.0") hdrs
                 ++ [Stderr (MReleaseBranchMissing (py "release-v1.1.0"))]
            /\ requests (trace run) = [release_branch_url org]
            /\ result run = Ok false)).
Proof.
  split; [exact run_start|].
  intros org hdrs Henv Horg Hhdrs t1 t2 t3 t4.
  destruct org as [|c org]; [contradiction|].
  destruct hdrs as [|x hdrs]; [contradiction|].
  unfold run_harmony_release_verification.
  rewrite !trace_print, !result_print.
  rewrite (trace_bind_ok _ _ _ Henv), (result_bind_ok _ _ _ Henv).
  cbv beta iota.
  subst t4 t3 t2 t1. unfold prelude. cbn [app].
  split; [|split; [|split]].
  - intros Hb. advance Hb. cbn [trace result ret fst snd].
    now rewrite ?app_nil_r, <- ?app_assoc.
  - intros Hb Hf. advance Hb. advance Hf. cbn [trace result ret fst snd].
    now rewrite ?app_nil_r, <- ?app_assoc.
  - intros n Hb Hf Hd. advance Hb. advance Hf. advance Hd.
    split; [|split].
    + intros ->. cbn [negb trace result ret fst snd].
      now rewrite ?app_nil_r, <- ?app_assoc.
    + intros -> Ht. cbn [negb]. advance Ht. cbn [trace result ret fst snd].
      now rewrite ?app_nil_r, <- ?app_assoc.
    + intros -> Ht Hm. cbn [negb]. advance Ht. advance Hm. cbn [trace result ret fst snd].
      now rewrite ?app_nil_r, <- ?app_assoc.
  - intros Hmissing.
    rewrite trace_bind, result_bind, verify_branches_eq, Hmissing.
    cbn [trace result ret fst snd negb andb]. rewrite ?app_nil_r.
    split; [reflexivity|]. split; [|reflexivity].
    cbn [requests]. rewrite requests_app.
    destruct (verify_environment_cases os_environ)
      as [[_ [_ Hreq]] | [token [org' [_ [_ [_ [_ Heq]]]]]]];
      [rewrite Hreq | rewrite Heq]; cbn [trace fst requests app];
      now rewrite requests_app, api_diagnostic_requests.
Qed.

(** *** Discovery as a step *)

Lemma find_merged_pr_loop_trace (keyword : pystr) (prs : list pyval) :
  trace (find_merged_pr_loop lower keyword prs) = [].
Proof.
  induction prs as [|pr prs IH]; [reflexivity|].
  cbn [find_merged_pr_loop]. unfold lift.
  destruct (py_get pr (py "title") (VStr [])) as [title|e]; [|reflexivity].
  cbn [bind]. destruct (py_lower lower title) as [pr_title|e]; [|reflexivity].
  cbn [bind]. destruct (py_get pr (py "merged_at") VNone) as [merged_at|e];
    [|reflexivity].
  cbn [bind app].
  destruct (str_in (lower keyword) pr_title && negb (is_none merged_at)).
  - reflexivity.
  - destruct (find_merged_pr_loop lower keyword prs) as [t r].
    cbn [trace fst] in IH. now subst t.
Qed.

Lemma find_merged_pr_trace (keyword base_branch : pystr) (headers : headers_t)
    (org repo : pystr) :
  let endpoint := py "pulls?state=closed&base=" ++ base_branch ++ py "&per_page=100" in
  trace (_find_merged_pr lower requests_get keyword base_branch headers org repo)
  = Get (api_url org repo endpoint) headers 10
      :: api_diagnostic requests_get org repo endpoint headers.
Proof.
  intros endpoint. unfold _find_merged_pr.
  rewrite trace_bind, call_github_api_eq. cbn [trace result fst snd].
  fold endpoint.
  destruct (fetched requests_get (api_url org repo endpoint) headers) as [data|];
    [|now rewrite app_nil_r].
  destruct data; cbn [negb]; try now rewrite app_nil_r.
  now rewrite find_merged_pr_loop_trace, app_nil_r.
Qed.

Lemma verify_release_pr_eq (headers : headers_t) (org : pystr) :
  let found := _find_merged_pr lower requests_get (py "Release v1.1.0") (py "main")
                 headers org harmony in
  release_pr headers org
  = (Stdout MStep4 :: trace found ++ fst (release_pr_verdict (result found)),
     snd (release_pr_verdict (result found))).
Proof.
  intros found. unfold _verify_release_pr. fold found.
  destruct found as [t [pr|e]]; unfold print, eprint, emit, ret, lift;
    cbn [bind app trace result fst snd release_pr_verdict];
    [|now rewrite app_nil_r].
  destruct (truthy pr); cbn [negb bind app]; [|reflexivity].
  destruct (py_get pr (py "number") VNone) as [n|e]; cbn [bind app].
  2:{ destruct (py_get pr (py "title") VNone), (py_get pr (py "merged_at") VNone);
      reflexivity. }
  destruct (py_get pr (py "title") VNone) as [title|e]; cbn [bind app].
  2:{ destruct (py_get pr (py "merged_at") VNone); reflexivity. }
  destruct (py_get pr (py "merged_at") VNone) as [merged_at|e]; cbn [bind app];
    [|reflexivity].
  destruct (py_slice_to 10 merged_at); reflexivity.
Qed.





(** *** The run as a whole *)

Local Abbreviation find_release_pr h o :=
  (_find_merged_pr lower requests_get (py "Release v1.1.0") (py "main") h o harmony).



End Pipeline.

(* ------------------------------------------------------------------ *)
(** ** Worked examples *)

Section Examples.

Import Scenario.

Local Abbreviation gw_A := (gateway table_A).

(** In scenario A the merge commit of pull request 42 is a squash merge. *)
Lemma squash_merge_scenario_A :
  result (_verify_squash_merge Reference.repr gw_A (VInt 42) headers org repo)
  = Ok true.
Proof.
  destruct (squash_merge_one_parent_and_reference Reference.repr gw_A 42
              headers org repo
              (items release_pull)
              (items (commit ["p1"%string] "Release v1.1.0 (#42)"))
              (py "abc123") (py "Release v1.1.0 (#42)")
              [VDict [(py "sha", VStr (py "p1"))]])
    as [_ [H _]];
    [ vm_compute; reflexivity | vm_compute; reflexivity | discriminate
    | vm_compute; reflexivity | discriminate | vm_compute; reflexivity
    | vm_compute; reflexivity | ].
  apply H; reflexivity.
Defined.

(** Discovery in scenario A: the first two records of the listing do not
    qualify (wrong title; not merged), the third does and is returned,
    although the fourth qualifies too. *)
Lemma discovery_scenario_A :
  result (_find_merged_pr Reference.lower gw_A (py "Release v1.1.0") (py "main")
            headers org repo)
  = Ok release_pull.
Proof.
  destruct (find_merged_pr_first_match Reference.lower gw_A
              (py "Release v1.1.0") (py "main") headers org repo listing)
    as [H _].
  - vm_compute; reflexivity.
  - repeat constructor; eexists; (split; [reflexivity|]);
      right; eexists; vm_compute; reflexivity.
  - apply (H [pull 40 "Fix typo" merged "main" "aaa";
              pull 41 "Release v1.1.0 (draft)" VNone "main" "bbb"]
             release_pull
             [pull 39 "release V1.1.0 again" merged "main" "ccc"]).
    + reflexivity.
    + apply release_candidate_dec. vm_compute; reflexivity.
    + repeat constructor; unfold pull; rewrite release_candidate_dec;
        vm_compute; discriminate.
Defined.

(** An empty [Cargo.toml], delivered with status 200, is reported as not
    found or unreadable. *)
Lemma empty_cargo_toml_unreadable :
  check_core_file Reference.b64decode_utf8 (gateway table_empty_file)
    cargo_rule true headers org repo
  = (Stdout (MFileChecking (CoreFile.name cargo_rule) (CoreFile.path cargo_rule)
               (CoreFile.branch cargo_rule))
       :: trace (_get_file_content Reference.b64decode_utf8 (gateway table_empty_file)
                   (CoreFile.path cargo_rule) (CoreFile.branch cargo_rule)
                   headers org repo)
       ++ [Stderr (MFileUnreadable (CoreFile.name cargo_rule))],
     Ok false).
Proof.
  apply (empty_content_is_unreadable Reference.b64decode_utf8
           (gateway table_empty_file) headers org repo cargo_rule true (Some [])).
  - vm_compute; reflexivity.
  - right; reflexivity.
Defined.

(** Scenario C: the release branch is missing, the run makes one request
    and returns false. *)
Lemma missing_release_branch_stops_run :
  requests (trace (run table_C env))
  = [api_url org (py "harmony") (py "branches/" ++ py "release-v1.1.0")]
  /\ result (run table_C env) = Ok false.
Proof.
  pose proof (proj2 (pipeline_fail_fast Reference.lower Reference.repr
                       Reference.b64decode_utf8 (gateway table_C) env)
                org headers) as H.
  cbv zeta in H.
  destruct H as [_ [_ [_ H]]];
    [vm_compute; reflexivity | discriminate | discriminate |].
  destruct H as [_ [Hreq Hres]]; [vm_compute; reflexivity|].
  split; assumption.
Defined.

(** A 404 and a 500 on the release branch give the same verdict and, the
    line of the gateway call apart, the same events. *)
Lemma not_found_and_server_error_alike :
  result (_verify_branches (gateway table_C) headers org repo)
  = result (_verify_branches (gateway table_C500) headers org repo)
  /\ without_api_diagnostics (trace (_verify_branches (gateway table_C) headers org repo))
     = without_api_diagnostics
         (trace (_verify_branches (gateway table_C500) headers org repo)).
Proof.
  apply (proj2 (branch_check_both_exist (gateway table_C) headers org repo)
           (gateway table_C500)).
  intros url. unfold fetched, gateway, table_C500. cbn [respond].
  destruct (str_eqb url _) eqn:E.
  - apply str_eqb_eq in E. subst url. vm_compute. exact I.
  - destruct (respond table_C url) as [c [d|] t|];
      try destruct (c =? 200)%Z; exact I.
Defined.

(** The listing says that pull request 42 went into [main]; the record
    fetched by number says [develop], and that one decides. *)
Lemma moved_base_detected :
  result (_verify_pr_merge_target Reference.repr (gateway table_moved_base)
            (VInt 42) headers org repo) = Ok false
  /\ In (Stderr (MMergeTargetMismatch (VInt 42) (VStr (py "develop")) (py "main")))
       (trace (_verify_pr_merge_target Reference.repr (gateway table_moved_base)
                 (VInt 42) headers org repo)).
Proof.
  apply (proj2 (proj2 (merge_target_refetched_and_compared Reference.repr
                         (gateway table_moved_base) (VInt 42) headers org repo))
           (pull 42 "Release v1.1.0" merged "develop" "abc123")
           (VStr (py "develop"))).
  - vm_compute; reflexivity.
  - reflexivity.
  - vm_compute; reflexivity.
  - intros H. vm_compute in H. discriminate.
Defined.


(** A [Cargo.toml] of the previous version fails its rule and the step. *)
Lemma old_version_fails_step :
  ~ rule_satisfied Reference.b64decode_utf8 (gateway table_old_version)
      headers org repo cargo_rule
  /\ result (_verify_core_files Reference.b64decode_utf8 (gateway table_old_version)
               headers org repo) = Ok false.
Proof.
  destruct (file_integrity_all_rules Reference.b64decode_utf8
              (gateway table_old_version) headers org repo)
    as [_ [_ [_ [_ [H _]]]]].
  apply (H cargo_rule (py "version = " ++ dquote ++ py "1.1.0" ++ dquote)
           old_cargo_toml).
  - right; right; left; reflexivity.
  - left; reflexivity.
  - vm_compute; reflexivity.
  - apply str_in_not_occurs. vm_compute; reflexivity.
Defined.

(** The three end-to-end scenarios of the specification. *)
Example scenario_A_exits_0 :
  snd (main Reference.lower Reference.repr Reference.b64decode_utf8 gw_A env) = 0%Z.
Proof. vm_compute. reflexivity. Qed.

Example scenario_B_fails_at_merge_method :
  snd (main Reference.lower Reference.repr Reference.b64decode_utf8
         (gateway table_B) env) = 1%Z
  /\ In (Stderr (MWrongParentCount 2)) (trace (run table_B env))
  /\ In (Stdout (MMergeTargetOk (VInt 42))) (trace (run table_B env)).
Proof. vm_compute. intuition. Qed.

Example scenario_C_exits_1 :
  snd (main Reference.lower Reference.repr Reference.b64decode_utf8
         (gateway table_C) env) = 1%Z.
Proof. vm_compute. reflexivity. Qed.

End Examples.

Example b64_roundtrip_example :
  Reference.b64decode_utf8 (Reference.b64encode (Reference.utf8_encode
    (py "version = 1.1.0" ++ [20214; 233; 128512]%N)))
  = Some (py "version = 1.1.0" ++ [20214; 233; 128512]%N).
Proof. vm_compute. reflexivity. Qed.

Example b64_known_example :
  Reference.b64encode (py "Man") = py "TWFu"
  /\ Reference.b64encode (py "Ma") = py "TWE="
  /\ Reference.b64encode (py "M") = py "TQ=="
  /\ Reference.b64decode_utf8 (py "aGFybW9ueQ==") = Some (py "harmony").
Proof. vm_compute. repeat split; reflexivity. Qed.

Example str_of_int_example :
  str_of_int 42 = py "42" /\ str_of_int 0 = py "0" /\ str_of_int (-7) = py "-7".
Proof. vm_compute. repeat split; reflexivity. Qed.

(* ------------------------------------------------------------------ *)
(** ** More of the script: the gateway call and the file fetch *)

Section GatewayCall.

Variable requests_get : pystr -> headers_t -> Z -> http_result.
Variable headers : headers_t.
Variables org repo : pystr.

(** X1.  [_call_github_api] never raises, whatever [requests.get] and
    [response.json()] do: it makes the one request, with the headers it
    was given and a timeout of 10, and returns [(True, data)] when the
    status is 200 and the body parses, printing nothing; in every other
    case it returns [(False, None)] and prints exactly one line on the
    error stream. *)
Theorem call_github_api_one_request_no_raise (endpoint : pystr) :
  let url := api_url org repo endpoint in
  exists diag,
    _call_github_api requests_get endpoint headers org repo
    = (Get url headers 10 :: diag,
       Ok (match fetched requests_get url headers with
           | Some data => (true, data)
           | None => (false, VNone)
           end))
    /\ (fetched requests_get url headers <> None -> diag = [])
    /\ (fetched requests_get url headers = None ->
        exists m, diag = [Stderr m] /\ message_step m = 0)
    /\ (fetched requests_get url headers <> None <->
        exists data text, requests_get url headers 10%Z = Response 200 (Some data) text).
Proof.
  intros url. exists (api_diagnostic requests_get org repo endpoint headers).
  split; [apply call_github_api_eq|].
  unfold api_diagnostic, fetched. fold url.
  destruct (requests_get url headers 10%Z) as [status [data|] text|].
  - destruct (status =? 200)%Z eqn:E.
    + apply Z.eqb_eq in E. subst status.
      repeat split; try discriminate; try congruence.
      intros _. now exists data, text.
    + split; [congruence|]. split.
      * intros _. destruct (status =? 404)%Z; eexists; split; reflexivity.
      * split; [congruence|]. intros [d [t [= H _ _]]]. subst status. discriminate.
  - split; [congruence|]. split.
    + intros _. destruct (status =? 200)%Z; [|destruct (status =? 404)%Z];
        eexists; split; reflexivity.
    + split; [congruence|]. intros [d [t [=]]].
  - split; [congruence|]. split.
    + intros _. eexists; split; reflexivity.
    + split; [congruence|]. intros [d [t [=]]].
Qed.

End GatewayCall.

Section FileFetch.

Variable b64decode_utf8 : pystr -> option pystr.
Variable requests_get : pystr -> headers_t -> Z -> http_result.
Variable headers : headers_t.
Variables org repo : pystr.
Variables file_path branch : pystr.

Local Abbreviation fetch :=
  (_get_file_content b64decode_utf8 requests_get file_path branch headers org repo).
Local Abbreviation url :=
  (api_url org repo (py "contents/" ++ file_path ++ py "?ref=" ++ branch)).

(** The fetch, case by case. *)
Lemma get_file_content_cases :
  fetch
  = (Get url headers 10
       :: api_diagnostic requests_get org repo
            (py "contents/" ++ file_path ++ py "?ref=" ++ branch) headers
       ++ match fetched requests_get url headers with
          | Some data =>
              if truthy data then
                match data with
                | VDict items =>
                    match content_of items with
                    | Some s =>
                        match b64decode_utf8 (remove_char 10%N s) with
                        | Some _ => []
                        | None => [Stderr (MFileDecodeError file_path)]
                        end
                    | None => [Stderr (MFileDecodeError file_path)]
                    end
                | _ => [Stderr (MFileDecodeError file_path)]
                end
              else []
          | None => []
          end,
     Ok match fetched requests_get url headers with
        | Some (VDict items) =>
            if truthy (VDict items) then
              match content_of items with
              | Some s => b64decode_utf8 (remove_char 10%N s)
              | None => None
              end
            else None
        | _ => None
        end).
Proof.
  unfold _get_file_content. rewrite call_github_api_eq, bind_ok.
  destruct (fetched requests_get url headers) as [data|]; cbn [negb orb];
    [|reflexivity].
  destruct data as [| b | z | s | l | items]; cbn [truthy negb];
    try reflexivity.
  - destruct b; reflexivity.
  - destruct (negb (z =? 0)%Z); reflexivity.
  - destruct s; reflexivity.
  - destruct l; reflexivity.
  - destruct items as [|kv items]; [reflexivity|].
    unfold content_of, py_b64decode_utf8, lift. cbn [py_get negb].
    destruct (lookup (py "content") (kv :: items)) as [[| b | z | s | l | d]|];
      cbn [bind py_strip_newlines try_except]; try reflexivity;
      destruct (b64decode_utf8 _); reflexivity.
Qed.

(** X2.  [_get_file_content] never raises and makes exactly one request.  It
    returns a text exactly when the request delivers a non-empty object
    whose [content], once its line breaks are removed, decodes (a missing
    [content] counting as the empty base64 text); the text returned is
    that decoding. *)
Theorem get_file_content_some_iff (text : pystr) :
  (exists content, result fetch = Ok content)
  /\ requests (trace fetch) = [url]
  /\ (result fetch = Ok (Some text) <->
      exists items s,
        fetched requests_get url headers = Some (VDict items)
        /\ items <> []
        /\ content_of items = Some s
        /\ b64decode_utf8 (remove_char 10%N s) = Some text).
Proof.
  rewrite get_file_content_cases. cbn [result trace fst snd requests].
  split; [eexists; reflexivity|]. split.
  - rewrite requests_app, api_diagnostic_requests. cbn [app]. f_equal.
    destruct (fetched requests_get url headers) as [data|]; [|reflexivity].
    destruct (truthy data); [|reflexivity].
    destruct data; try reflexivity.
    destruct (content_of items) as [s|]; [|reflexivity].
    destruct (b64decode_utf8 _); reflexivity.
  - destruct (fetched requests_get url headers) as [[| b | z | s | l | items]|];
      try (split; [discriminate | intros [i [s' [[=] _]]]]).
    destruct items as [|kv items].
    + split; [discriminate | intros [i [s' [[= <-] [H _]]]]; now destruct H].
    + cbn [truthy]. split.
      * intros [= H].
        destruct (content_of (kv :: items)) as [s|] eqn:Hc; [|discriminate].
        exists (kv :: items), s.
        split; [reflexivity|]. split; [discriminate|]. split; [exact Hc|exact H].
      * intros [i [s [[= <-] [_ [-> H]]]]]. now rewrite H.
Qed.

(** X3.  When the request delivers a payload that counts as true and the
    fetch nevertheless returns [None] (the payload is no object, as for a
    directory; its [content] is no text; or the decoding fails), the
    exception is swallowed and reported by the one decode-error line. *)
Theorem get_file_content_swallows_decode_error (data : pyval) :
  fetched requests_get url headers = Some data ->
  truthy data = true ->
  result fetch = Ok None ->
  fetch = ([Get url headers 10; Stderr (MFileDecodeError file_path)], Ok None).
Proof.
  intros Hfetch Htruthy. rewrite get_file_content_cases.
  rewrite (api_diagnostic_fetched _ _ _ _ _ _ Hfetch), Hfetch, Htruthy.
  cbn [result snd app].
  destruct data; try reflexivity.
  rewrite Htruthy.
  destruct (content_of items) as [s|]; [|reflexivity].
  destruct (b64decode_utf8 _); [discriminate | reflexivity].
Qed.

End FileFetch.

(* ------------------------------------------------------------------ *)
(** ** More of the script: discovery *)

Section DiscoveryEdges.

Variable lower : pystr -> pystr.
Variable requests_get : pystr -> headers_t -> Z -> http_result.
Variables keyword base_branch : pystr.
Variable headers : headers_t.
Variables org repo : pystr.

Local Abbreviation find :=
  (_find_merged_pr lower requests_get keyword base_branch headers org repo).
Local Abbreviation url :=
  (api_url org repo
     (py "pulls?state=closed&base=" ++ base_branch ++ py "&per_page=100")).

Lemma find_merged_pr_result (prs : list pyval) :
  fetched requests_get url headers = Some (VList prs) ->
  result find = result (find_merged_pr_loop lower keyword prs).
Proof.
  intros H. unfold _find_merged_pr.
  rewrite result_bind, call_github_api_eq. cbn [result snd]. now rewrite H.
Qed.

Lemma loop_malformed (bad : pyval) (rest : list pyval) :
  malformed_record bad ->
  result (find_merged_pr_loop lower keyword (bad :: rest)) = Raise AttributeError.
Proof.
  intros [Hbad | [items [t [-> [Ht Hs]]]]]; cbn [find_merged_pr_loop].
  - destruct bad; try reflexivity. now destruct (Hbad items).
  - cbn [py_get]. rewrite Ht. unfold lift. cbn [bind].
    destruct t; try reflexivity. now destruct (Hs s).
Qed.

Lemma loop_skips (pre rest : list pyval) :
  Forall pull_request_summary pre ->
  Forall (fun p => ~ release_candidate lower keyword p) pre ->
  find_merged_pr_loop lower keyword (pre ++ rest)
  = find_merged_pr_loop lower keyword rest.
Proof.
  induction pre as [|p pre IH]; intros Hwf Hpre; [reflexivity|].
  inversion Hwf; subst. inversion Hpre; subst. cbn [app].
  rewrite (proj2 (loop_turn lower keyword p _ H1)) by assumption.
  now apply IH.
Qed.

(** X4.  [_find_merged_pr] asks for one page of at most 100 closed pull
    requests and never for another, whatever the listing holds and even
    when the loop raises.  When that request fails, or delivers something
    that is no list, it returns [None] without raising. *)
Theorem find_merged_pr_one_page :
  requests (trace find) = [url]
  /\ (fetched requests_get url headers = None -> result find = Ok VNone)
  /\ (forall data,
        fetched requests_get url headers = Some data ->
        (forall prs, data <> VList prs) ->
        result find = Ok VNone).
Proof.
  split; [|split].
  - rewrite find_merged_pr_trace. cbn [requests].
    now rewrite api_diagnostic_requests.
  - intros H. unfold _find_merged_pr.
    rewrite result_bind, call_github_api_eq. cbn [result snd]. now rewrite H.
  - intros data H Hdata. unfold _find_merged_pr.
    rewrite result_bind, call_github_api_eq. cbn [result snd]. rewrite H.
    destruct data; try reflexivity. now destruct (Hdata l).
Qed.

(** X5.  The loop of [_find_merged_pr] returns at the first match and does
    not look at the records behind it: they may hold anything. *)
Theorem find_merged_pr_ignores_records_after_match
    (pre : list pyval) (pr : pyval) (post : list pyval) :
  fetched requests_get url headers = Some (VList (pre ++ pr :: post)) ->
  Forall pull_request_summary pre ->
  Forall (fun p => ~ release_candidate lower keyword p) pre ->
  pull_request_summary pr ->
  release_candidate lower keyword pr ->
  result find = Ok pr.
Proof.
  intros Hfetch Hwf Hpre Hpr Hcand.
  rewrite (find_merged_pr_result _ Hfetch), loop_skips by assumption.
  now rewrite (proj1 (loop_turn lower keyword pr post Hpr) Hcand).
Qed.

(** X6.  A record that is no object, or whose title is no text, makes the
    search raise [AttributeError] when the loop reaches it, that is when no
    record before it matches: nothing in [_find_merged_pr] catches it. *)
Theorem find_merged_pr_raises_on_malformed_record
    (pre : list pyval) (bad : pyval) (post : list pyval) :
  fetched requests_get url headers = Some (VList (pre ++ bad :: post)) ->
  Forall pull_request_summary pre ->
  Forall (fun p => ~ release_candidate lower keyword p) pre ->
  malformed_record bad ->
  result find = Raise AttributeError.
Proof.
  intros Hfetch Hwf Hpre Hbad.
  rewrite (find_merged_pr_result _ Hfetch), loop_skips by assumption.
  now apply loop_malformed.
Qed.

End DiscoveryEdges.

(* ------------------------------------------------------------------ *)
(** ** More of the script: the squash-merge validation *)

Section SquashEdges.

Variable py_repr : pyval -> pystr.
Variable requests_get : pystr -> headers_t -> Z -> http_result.
Variable headers : headers_t.
Variables org repo : pystr.

Local Abbreviation squash n :=
  (_verify_squash_merge py_repr requests_get n headers org repo).
Local Abbreviation pull_url n := (api_url org repo (py "pulls/" ++ py_str py_repr n)).
Local Abbreviation commit_url sha := (api_url org repo (py "commits/" ++ py_str py_repr sha)).
Local Abbreviation diag endpoint := (api_diagnostic requests_get org repo endpoint headers).

(** The validation, case by case, up to the fetch of the commit. *)
Lemma verify_squash_merge_without_commit (n : pyval) :
  (fetched requests_get (pull_url n) headers = None ->
   squash n = (Get (pull_url n) headers 10 :: diag (py "pulls/" ++ py_str py_repr n),
               Ok false))
  /\ (forall pr_detail,
        fetched requests_get (pull_url n) headers = Some pr_detail ->
        truthy pr_detail = false ->
        squash n = ([Get (pull_url n) headers 10], Ok false))
  /\ (forall items sha,
        fetched requests_get (pull_url n) headers = Some (VDict items) ->
        items <> [] ->
        lookup (py "merge_commit_sha") items = sha ->
        truthy (match sha with Some v => v | None => VNone end) = false ->
        squash n = ([Get (pull_url n) headers 10; Stderr (MNoMergeSha n)], Ok false))
  /\ (forall items sha,
        fetched requests_get (pull_url n) headers = Some (VDict items) ->
        lookup (py "merge_commit_sha") items = Some sha ->
        truthy sha = true ->
        fetched requests_get (commit_url sha) headers = None ->
        squash n
        = (Get (pull_url n) headers 10 :: Get (commit_url sha) headers 10
             :: diag (py "commits/" ++ py_str py_repr sha),
           Ok false)).
Proof.
  unfold _verify_squash_merge. rewrite call_github_api_eq.
  split; [|split; [|split]].
  - intros H. rewrite H, bind_ok. cbn [negb orb trace result ret fst snd].
    now rewrite app_nil_r.
  - intros d H Hd. rewrite (api_diagnostic_fetched _ _ _ _ _ _ H), H, bind_ok, Hd.
    reflexivity.
  - intros items sha H Hitems Hsha Hfalsy.
    rewrite (api_diagnostic_fetched _ _ _ _ _ _ H), H, bind_ok.
    destruct items as [|kv items]; [contradiction|].
    change (truthy (VDict (kv :: items))) with true.
    cbn [negb orb py_get]. rewrite Hsha.
    unfold eprint, emit, ret, lift. cbn [bind]. rewrite Hfalsy. reflexivity.
  - intros items sha H Hsha Htruthy Hcommit.
    rewrite (api_diagnostic_fetched _ _ _ _ _ _ H), H, bind_ok.
    destruct items as [|kv items]; [discriminate|].
    change (truthy (VDict (kv :: items))) with true.
    cbn [negb orb py_get]. rewrite Hsha.
    unfold lift. cbn [bind]. rewrite Htruthy. cbn [negb].
    rewrite call_github_api_eq, Hcommit, bind_ok.
    cbn [negb orb trace result ret fst snd app]. now rewrite app_nil_r.
Qed.

(** X7.  [_verify_squash_merge] asks for the commit only once the pull
    request has given it a merge commit sha.  When the pull request cannot
    be fetched the validation returns false after that one request and
    prints nothing of its own; when the record has no sha (absent, null or
    empty) it returns false after that one request and says so; when the
    commit cannot be fetched it returns false after the second request,
    again without a line of its own. *)
Theorem squash_merge_requests_commit_only_with_sha (n : pyval) :
  (fetched requests_get (pull_url n) headers = None ->
   result (squash n) = Ok false
   /\ requests (trace (squash n)) = [pull_url n]
   /\ without_api_diagnostics (trace (squash n)) = [Get (pull_url n) headers 10])
  /\ (forall items sha,
        fetched requests_get (pull_url n) headers = Some (VDict items) ->
        items <> [] ->
        lookup (py "merge_commit_sha") items = sha ->
        truthy (match sha with Some v => v | None => VNone end) = false ->
        squash n = ([Get (pull_url n) headers 10; Stderr (MNoMergeSha n)], Ok false))
  /\ (forall items sha,
        fetched requests_get (pull_url n) headers = Some (VDict items) ->
        lookup (py "merge_commit_sha") items = Some sha ->
        truthy sha = true ->
        fetched requests_get (commit_url sha) headers = None ->
        result (squash n) = Ok false
        /\ requests (trace (squash n)) = [pull_url n; commit_url sha]
        /\ without_api_diagnostics (trace (squash n))
           = [Get (pull_url n) headers 10; Get (commit_url sha) headers 10]).
Proof.
  destruct (verify_squash_merge_without_commit n) as [H1 [_ [H3 H4]]].
  split; [|split].
  - intros H. rewrite (H1 H). cbn [result trace fst snd requests].
    rewrite api_diagnostic_requests. repeat split.
    cbn [without_api_diagnostics filter is_api_diagnostic negb].
    fold (without_api_diagnostics (diag (py "pulls/" ++ py_str py_repr n))).
    now rewrite api_diagnostic_erased.
  - exact H3.
  - intros items sha H Hsha Htruthy Hcommit.
    rewrite (H4 items sha H Hsha Htruthy Hcommit).
    cbn [result trace fst snd requests].
    rewrite api_diagnostic_requests. repeat split.
    cbn [without_api_diagnostics filter is_api_diagnostic negb].
    fold (without_api_diagnostics (diag (py "commits/" ++ py_str py_repr sha))).
    now rewrite api_diagnostic_erased.
Qed.

(** The verdict on a fetched commit (the computation behind C1). *)
Lemma squash_merge_verdict
    (n : Z) (pr_items commit_items : list (pystr * pyval))
    (sha msg : pystr) (parents : list pyval) :
  fetched requests_get (api_url org repo (py "pulls/" ++ str_of_int n)) headers
    = Some (VDict pr_items) ->
  lookup (py "merge_commit_sha") pr_items = Some (VStr sha) ->
  sha <> [] ->
  fetched requests_get (api_url org repo (py "commits/" ++ sha)) headers
    = Some (VDict commit_items) ->
  commit_items <> [] ->
  parents_of commit_items = Some parents ->
  message_of commit_items = Some msg ->
  squash (VInt n)
  = ([Get (api_url org repo (py "pulls/" ++ str_of_int n)) headers 10;
      Get (api_url org repo (py "commits/" ++ sha)) headers 10]
     ++ (if negb (length parents =? 1) then [Stderr (MWrongParentCount (length parents))]
         else if str_in (py "#" ++ str_of_int n) msg then []
         else [Stderr (MMissingPrReference (VInt n))]),
     Ok ((length parents =? 1) && str_in (py "#" ++ str_of_int n) msg)).
Proof.
  intros Hpr Hsha Hne Hcommit Hitems Hparents Hmsg.
  unfold _verify_squash_merge. cbn [py_str].
  rewrite call_github_api_eq, (api_diagnostic_fetched _ _ _ _ _ _ Hpr), Hpr, bind_ok.
  destruct pr_items as [|kv pr_items']; [discriminate|].
  unfold lift. cbn [truthy negb orb py_get]. rewrite Hsha.
  destruct sha as [|c sha']; [contradiction|].
  cbn [bind truthy negb py_str].
  rewrite call_github_api_eq, (api_diagnostic_fetched _ _ _ _ _ _ Hcommit), Hcommit.
  destruct commit_items as [|kv' commit_items']; [contradiction|].
  cbn [bind truthy negb orb py_get].
  assert (Hlen : py_len (match lookup (py "parents") (kv' :: commit_items') with
                         | Some v => v
                         | None => VList []
                         end) = Ok (length parents)).
  { unfold parents_of in Hparents.
    destruct (lookup (py "parents") (kv' :: commit_items')) as [[]|];
      try discriminate; injection Hparents as <-; reflexivity. }
  rewrite Hlen. cbn [bind].
  unfold eprint, emit, ret.
  destruct (length parents =? 1) eqn:Hcount; cbn [negb andb bind trace result fst snd app];
    [|reflexivity].
  unfold message_of in Hmsg.
  destruct (lookup (py "commit") (kv' :: commit_items')) as [[| | | | |commit]|];
    try discriminate; cbn [bind py_get].
  - destruct (lookup (py "message") commit) as [[]|]; try discriminate;
      injection Hmsg as <-; cbn [bind py_in];
      destruct (str_in (py "#" ++ str_of_int n) _); reflexivity.
  - injection Hmsg as <-. cbn [lookup bind py_in].
    destruct (str_in (py "#" ++ str_of_int n) []); reflexivity.
Qed.

(** X8.  The reference to the pull request is looked for as a piece of
    text, not as a number: a one-parent commit whose message refers to pull
    request [m] is accepted for every pull request [n] whose decimal
    writing begins that of [m]. *)
Theorem squash_merge_accepts_longer_number
    (n m : Z) (pr_items commit_items : list (pystr * pyval))
    (sha msg digits : pystr) (parent : pyval) :
  fetched requests_get (api_url org repo (py "pulls/" ++ str_of_int n)) headers
    = Some (VDict pr_items) ->
  lookup (py "merge_commit_sha") pr_items = Some (VStr sha) ->
  sha <> [] ->
  fetched requests_get (api_url org repo (py "commits/" ++ sha)) headers
    = Some (VDict commit_items) ->
  commit_items <> [] ->
  parents_of commit_items = Some [parent] ->
  message_of commit_items = Some msg ->
  str_of_int m = str_of_int n ++ digits ->
  occurs (py "#" ++ str_of_int m) msg ->
  result (squash (VInt n)) = Ok true.
Proof.
  intros Hpr Hsha Hne Hcommit Hitems Hparents Hmsg Hdigits [pre [post Hocc]].
  rewrite (squash_merge_verdict n pr_items commit_items sha msg [parent]) by assumption.
  cbn [result snd length Nat.eqb andb]. f_equal.
  apply str_in_occurs. exists pre, (digits ++ post).
  rewrite Hocc, Hdigits. now rewrite <- !app_assoc.
Qed.

End SquashEdges.

(* ------------------------------------------------------------------ *)
(** ** More of the script: the merge-target check and the file turn *)

Section MergeTargetEdges.

Variable py_repr : pyval -> pystr.
Variable requests_get : pystr -> headers_t -> Z -> http_result.
Variable pr_number : pyval.
Variable headers : headers_t.
Variables org repo : pystr.

Local Abbreviation step :=
  (_verify_pr_merge_target py_repr requests_get pr_number headers org repo).
Local Abbreviation url := (api_url org repo (py "pulls/" ++ py_str py_repr pr_number)).

(** X9.  On a fetched record, [_verify_pr_merge_target] takes a missing
    [base], or a [base] without [ref], for the base [None]: it returns
    false and prints the mismatch line with [None] as the actual branch.
    A [base] that is there and is no object (a null, a text) is not
    guarded against: the check raises [AttributeError]. *)
Theorem merge_target_missing_or_malformed_base (items : list (pystr * pyval)) :
  fetched requests_get url headers = Some (VDict items) ->
  items <> [] ->
  (lookup (py "base") items = None
   \/ (exists base, lookup (py "base") items = Some (VDict base)
                    /\ lookup (py "ref") base = None) ->
   step = ([Stdout MStep5; Get url headers 10;
            Stderr (MMergeTargetMismatch pr_number VNone (py "main"))],
           Ok false))
  /\ (forall base,
        lookup (py "base") items = Some base ->
        (forall fields, base <> VDict fields) ->
        step = ([Stdout MStep5; Get url headers 10], Raise AttributeError)).
Proof.
  intros Hfetch Hitems. rewrite verify_pr_merge_target_eq.
  rewrite (api_diagnostic_fetched _ _ _ _ _ _ Hfetch), Hfetch.
  destruct items as [|kv items]; [contradiction|].
  unfold merge_target_verdict, base_ref_of.
  change (truthy (VDict (kv :: items))) with true. cbn [py_get app].
  split.
  - intros [H | [base [Hb Hr]]].
    + rewrite H. reflexivity.
    + rewrite Hb. cbn [py_get]. rewrite Hr. reflexivity.
  - intros base Hb Hbase. rewrite Hb. destruct base; try reflexivity.
    now destruct (Hbase items0).
Qed.

End MergeTargetEdges.

Section FileTurn.

Variable b64decode_utf8 : pystr -> option pystr.
Variable requests_get : pystr -> headers_t -> Z -> http_result.
Variable headers : headers_t.
Variables org repo : pystr.

Local Abbreviation get_file_content file :=
  (_get_file_content b64decode_utf8 requests_get
     (CoreFile.path file) (CoreFile.branch file) headers org repo).
Local Abbreviation check file all_passed :=
  (check_core_file b64decode_utf8 requests_get file all_passed headers org repo).

(** X10.  The size of a file is checked before its content, and the turn
    ends there: a delivered file shorter (in characters) than [min_size]
    is reported by the one size line, carrying the actual and the required
    length, and none of its required strings is looked for. *)
Theorem short_file_reported_by_size_only
    (file : CoreFile.t) (all_passed : bool) (text : pystr) :
  result (get_file_content file) = Ok (Some text) ->
  text <> [] ->
  (Z.of_nat (length text) < CoreFile.min_size file)%Z ->
  check file all_passed
  = (Stdout (MFileChecking (CoreFile.name file) (CoreFile.path file)
               (CoreFile.branch file))
       :: trace (get_file_content file)
       ++ [Stderr (MFileTooSmall (CoreFile.name file) (length text)
                     (CoreFile.min_size file))],
     Ok false).
Proof.
  intros Hget Htext Hsize. unfold check_core_file.
  destruct (get_file_content file) as [t r]. cbn [result snd] in Hget. subst r.
  cbn [trace fst]. destruct text as [|c text]; [contradiction|].
  apply Z.ltb_lt in Hsize. unfold print, eprint, emit, ret. cbn [bind app].
  rewrite Hsize. reflexivity.
Qed.

End FileTurn.

(** X11.  When strings are missing from a file, [check_content] prints one
    line that names them: for a list of keywords, exactly the keywords that
    do not occur in the text, in the order of the rule; for a list of
    contents, the same cut to 30 characters and followed by ["..."]; for a
    single content, its first 50 characters.  It prints nothing when
    nothing is missing. *)
Theorem check_content_names_missing_strings
    (name path branch : pystr) (min_size : Z) (text s : pystr) (l : list pystr)
    (contents keywords : option (list pystr)) :
  let missing := filter (fun r => negb (str_in r text)) l in
  (forall r, In r missing <-> In r l /\ ~ occurs r text)
  /\ trace (check_content
              (CoreFile.Build name path branch None None (Some l) min_size) text)
     = match missing with
       | [] => []
       | _ => [Stderr (MMissingKeywords missing)]
       end
  /\ trace (check_content
              (CoreFile.Build name path branch None (Some l) keywords min_size) text)
     = match missing with
       | [] => []
       | _ => [Stderr (MMissingContents (map (fun r => firstn 30 r ++ py "...") missing))]
       end
  /\ trace (check_content
              (CoreFile.Build name path branch (Some s) contents keywords min_size) text)
     = if str_in s text then [] else [Stderr (MMissingContent (firstn 50 s))].
Proof.
  intros missing. split; [|split; [|split]].
  - intros r. unfold missing. rewrite filter_In, negb_true_iff, str_in_not_occurs.
    reflexivity.
  - unfold check_content. cbn [CoreFile.required_content CoreFile.required_contents
                               CoreFile.required_keywords].
    fold missing. destruct missing; reflexivity.
  - unfold check_content. cbn [CoreFile.required_content CoreFile.required_contents
                               CoreFile.required_keywords].
    fold missing. destruct missing; reflexivity.
  - unfold check_content. cbn [CoreFile.required_content].
    destruct (str_in s text); reflexivity.
Qed.

(* ------------------------------------------------------------------ *)
(** ** More of the script: where the requests go *)

Lemma Forall_trace_bind {A B} (P : event -> Prop) (m : M A) (k : A -> M B) :
  Forall P (trace m) -> (forall a, Forall P (trace (k a))) ->
  Forall P (trace (bind m k)).
Proof.
  intros Hm Hk. rewrite trace_bind. apply Forall_app. split; [exact Hm|].
  destruct (result m); [apply Hk | constructor].
Qed.

Lemma Forall_trace_try {A} (P : event -> Prop) (body handler : M A) :
  Forall P (trace body) -> Forall P (trace handler) ->
  Forall P (trace (try_except body handler)).
Proof.
  intros Hb Hh. destruct body as [t [a|e]]; [exact Hb|].
  destruct handler as [t' r]. cbn [try_except trace fst] in *.
  apply Forall_app. now split.
Qed.

Section Addressed.

Variable lower : pystr -> pystr.
Variable py_repr : pyval -> pystr.
Variable b64decode_utf8 : pystr -> option pystr.
Variable requests_get : pystr -> headers_t -> Z -> http_result.
Variable headers : headers_t.
Variables org repo : pystr.

Local Abbreviation here := (addressed_to headers org repo).

Lemma addressed_ret {A} (a : A) : Forall here (trace (ret a)).
Proof. constructor. Qed.

Lemma addressed_lift {A} (o : outcome A) : Forall here (trace (lift o)).
Proof. constructor. Qed.

Lemma addressed_print (m : message) : Forall here (trace (print m)).
Proof. repeat constructor. Qed.

Lemma addressed_eprint (m : message) : Forall here (trace (eprint m)).
Proof. repeat constructor. Qed.

Lemma addressed_call (endpoint : pystr) :
  Forall here (trace (_call_github_api requests_get endpoint headers org repo)).
Proof.
  rewrite call_github_api_eq. cbn [trace fst]. constructor.
  - cbn. repeat split. now exists endpoint.
  - pose proof (api_diagnostic_printed requests_get 0 endpoint headers org repo) as H.
    rewrite forallb_forall in H. apply Forall_forall. intros e He.
    specialize (H e He). destruct e; [discriminate | exact I | exact I].
Qed.

End Addressed.

(** Walk through a function of the script, one statement at a time. *)
Ltac addressed :=
  repeat first
    [ apply addressed_ret | apply addressed_lift | apply addressed_print
    | apply addressed_eprint | apply addressed_call
    | apply Forall_trace_bind; [ | intros ? ]
    | apply Forall_trace_try
    | match goal with
      | |- Forall _ (trace (let (_, _) := ?x in _)) => destruct x
      | |- Forall _ (trace (if ?b then _ else _)) => destruct b
      | |- Forall _ (trace (match ?x with _ => _ end)) => destruct x
      end ].

Section AddressedSteps.

Variable lower : pystr -> pystr.
Variable py_repr : pyval -> pystr.
Variable b64decode_utf8 : pystr -> option pystr.
Variable requests_get : pystr -> headers_t -> Z -> http_result.
Variable headers : headers_t.
Variables org repo : pystr.

Local Abbreviation here := (addressed_to headers org repo).

Lemma addressed_branches :
  Forall here (trace (_verify_branches requests_get headers org repo)).
Proof. unfold _verify_branches, _check_branch_exists. addressed. Qed.

Lemma addressed_get_file_content (file_path branch : pystr) :
  Forall here
    (trace (_get_file_content b64decode_utf8 requests_get file_path branch
              headers org repo)).
Proof. unfold _get_file_content. addressed. Qed.

Lemma addressed_check_content (file : CoreFile.t) (text : pystr) :
  Forall here (trace (check_content file text)).
Proof. unfold check_content. addressed. Qed.

Lemma addressed_core_files_loop (files : list CoreFile.t) (all_passed : bool) :
  Forall here
    (trace (core_files_loop b64decode_utf8 requests_get files all_passed
              headers org repo)).
Proof.
  revert all_passed. induction files as [|file files IH]; intros all_passed.
  - constructor.
  - cbn [core_files_loop]. apply Forall_trace_bind; [|intros; apply IH].
    unfold check_core_file.
    apply Forall_trace_bind; [apply addressed_print | intros _].
    apply Forall_trace_bind; [apply addressed_get_file_content | intros content].
    destruct content as [[|c text]|]; addressed.
    apply addressed_check_content.
Qed.

Lemma addressed_core_files :
  Forall here (trace (_verify_core_files b64decode_utf8 requests_get headers org repo)).
Proof.
  unfold _verify_core_files.
  apply Forall_trace_bind; [apply addressed_print | intros _].
  apply Forall_trace_bind; [apply addressed_core_files_loop | intros b].
  addressed.
Qed.

Lemma addressed_find_merged_pr (keyword base_branch : pystr) :
  Forall here
    (trace (_find_merged_pr lower requests_get keyword base_branch headers org repo)).
Proof.
  unfold _find_merged_pr.
  apply Forall_trace_bind; [apply addressed_call | intros [success pr_list]].
  destruct pr_list; addressed.
  rewrite find_merged_pr_loop_trace. constructor.
Qed.

Lemma addressed_release_pr :
  Forall here (trace (_verify_release_pr lower requests_get headers org repo)).
Proof.
  unfold _verify_release_pr.
  apply Forall_trace_bind; [apply addressed_print | intros _].
  apply Forall_trace_bind; [apply addressed_find_merged_pr | intros release_pr].
  addressed.
Qed.

Lemma addressed_merge_target (pr_number : pyval) :
  Forall here
    (trace (_verify_pr_merge_target py_repr requests_get pr_number headers org repo)).
Proof. unfold _verify_pr_merge_target. addressed. Qed.

Lemma addressed_squash_merge (pr_number : pyval) :
  Forall here
    (trace (_verify_squash_merge py_repr requests_get pr_number headers org repo)).
Proof. unfold _verify_squash_merge. addressed. Qed.

Lemma addressed_merge_method (pr_number : pyval) :
  Forall here
    (trace (_verify_merge_method py_repr requests_get pr_number headers org repo)).
Proof.
  unfold _verify_merge_method.
  apply Forall_trace_bind; [apply addressed_print | intros _].
  apply Forall_trace_bind; [apply addressed_squash_merge | intros squash].
  addressed.
Qed.

End AddressedSteps.


Lemma In_get_requests (url : pystr) (h : headers_t) (t : Z) (tr : list event) :
  In (Get url h t) tr -> In url (requests tr).
Proof.
  induction tr as [|e tr IH]; [easy|]. intros [-> | H].
  - now left.
  - destruct e; cbn [requests]; [right|..]; now apply IH.
Qed.

Section StepRequests.

Variable lower : pystr -> pystr.
Variable py_repr : pyval -> pystr.
Variable requests_get : pystr -> headers_t -> Z -> http_result.
Variable headers : headers_t.
Variables org repo : pystr.

Local Abbreviation squash n :=
  (_verify_squash_merge py_repr requests_get n headers org repo).
Local Abbreviation pull_url n := (api_url org repo (py "pulls/" ++ py_str py_repr n)).
Local Abbreviation commit_url sha := (api_url org repo (py "commits/" ++ py_str py_repr sha)).

Lemma merge_target_requests (n : pyval) :
  requests (trace (_verify_pr_merge_target py_repr requests_get n headers org repo))
  = [pull_url n].
Proof.
  rewrite verify_pr_merge_target_eq. cbn [trace fst requests].
  rewrite requests_app, api_diagnostic_requests. cbn [app]. f_equal.
  unfold merge_target_verdict.
  destruct (fetched requests_get (pull_url n) headers) as [d|]; [|reflexivity].
  destruct (truthy d); [|reflexivity].
  destruct (base_ref_of d) as [actual|e]; [|reflexivity].
  destruct (py_ne_str actual (py "main")); reflexivity.
Qed.

(** A validation that succeeds has fetched the pull request and then the
    commit of its sha, and nothing else. *)
Lemma squash_success_requests (n : pyval) :
  result (squash n) = Ok true ->
  exists items sha,
    fetched requests_get (pull_url n) headers = Some (VDict items)
    /\ lookup (py "merge_commit_sha") items = Some sha
    /\ truthy sha = true
    /\ requests (trace (squash n)) = [pull_url n; commit_url sha].
Proof.
  unfold _verify_squash_merge. rewrite call_github_api_eq.
  destruct (fetched requests_get (pull_url n) headers) as [d|] eqn:Hpr.
  2:{ rewrite bind_ok. cbn [negb orb result ret snd]. discriminate. }
  rewrite (api_diagnostic_fetched _ _ _ _ _ _ Hpr), bind_ok.
  destruct (truthy d) eqn:Hd; cbn [negb orb].
  2:{ cbn [result ret snd]. discriminate. }
  destruct d as [| | | | |items]; try (cbn [result snd py_get lift bind]; discriminate).
  unfold lift. cbn [py_get].
  destruct (lookup (py "merge_commit_sha") items) as [sha|] eqn:Hsha.
  2:{ cbn [bind truthy negb result snd eprint emit ret]. discriminate. }
  cbn [bind]. destruct (truthy sha) eqn:Hs; cbn [negb].
  2:{ cbn [bind result snd eprint emit ret]. discriminate. }
  rewrite call_github_api_eq.
  destruct (fetched requests_get (commit_url sha) headers) as [c|] eqn:Hc.
  2:{ rewrite bind_ok. cbn [negb orb result ret snd trace fst]. discriminate. }
  rewrite (api_diagnostic_fetched _ _ _ _ _ _ Hc), bind_ok.
  destruct (truthy c); cbn [negb orb]; [|cbn [result ret snd trace fst]; discriminate].
  intros H. exists items, sha. repeat split; try assumption.
  cbn [trace fst app requests] in *. do 2 f_equal.
  cbn [result snd] in H.
  destruct (py_get c (py "parents") (VList [])) as [parents|e];
    [|discriminate H]. cbn [bind] in *.
  destruct (py_len parents) as [count|e]; [|discriminate H]. cbn [bind] in *.
  destruct (negb (count =? 1)); [discriminate H|].
  destruct (py_get c (py "commit") (VDict [])) as [commit|e]; [|discriminate H].
  cbn [bind] in *.
  destruct (py_get commit (py "message") (VStr [])) as [msg|e]; [|discriminate H].
  cbn [bind] in *.
  destruct (py_in (py "#" ++ py_str py_repr n) msg) as [found|e]; [|discriminate H].
  cbn [bind] in *. destruct (negb found); [discriminate H | reflexivity].
Qed.

End StepRequests.


(* ------------------------------------------------------------------ *)
(** ** More of the script: the run *)

Section PipelineEdges.

Variable lower : pystr -> pystr.
Variable py_repr : pyval -> pystr.
Variable b64decode_utf8 : pystr -> option pystr.
Variable requests_get : pystr -> headers_t -> Z -> http_result.
Variable os_environ : environ.

Local Abbreviation harmony := (py "harmony").
Local Abbreviation environment := (_verify_environment os_environ).
Local Abbreviation branches h o := (_verify_branches requests_get h o harmony).
Local Abbreviation files h o :=
  (_verify_core_files b64decode_utf8 requests_get h o harmony).
Local Abbreviation find_release_pr h o :=
  (_find_merged_pr lower requests_get (py "Release v1.1.0") (py "main") h o harmony).
Local Abbreviation release_pr h o :=
  (_verify_release_pr lower requests_get h o harmony).
Local Abbreviation merge_target n h o :=
  (_verify_pr_merge_target py_repr requests_get n h o harmony).
Local Abbreviation squash n h o :=
  (_verify_squash_merge py_repr requests_get n h o harmony).
Local Abbreviation merge_method n h o :=
  (_verify_merge_method py_repr requests_get n h o harmony).
Local Abbreviation run :=
  (run_harmony_release_verification lower py_repr b64decode_utf8 requests_get
     os_environ).
Local Abbreviation program :=
  (main lower py_repr b64decode_utf8 requests_get os_environ).

Lemma verify_merge_method_eq (n : pyval) (h : headers_t) (o : pystr) :
  merge_method n h o
  = (Stdout MStep6 :: trace (squash n h o)
       ++ match result (squash n h o) with
          | Ok true => [Stdout (MMergeMethodOk n)]
          | Ok false => [Stderr (MMergeMethodBad n)]
          | Raise _ => []
          end,
     result (squash n h o)).
Proof.
  unfold _verify_merge_method.
  destruct (squash n h o) as [t [[|]|e]]; cbn; now rewrite ?app_nil_r.
Qed.

Lemma release_pr_requests (h : headers_t) (o : pystr) :
  requests (trace (release_pr h o))
  = [api_url o harmony (py "pulls?state=closed&base=" ++ py "main" ++ py "&per_page=100")].
Proof.
  rewrite verify_release_pr_eq. cbn [trace fst requests].
  rewrite requests_app, find_merged_pr_trace. cbn [requests].
  rewrite api_diagnostic_requests. cbn [app]. f_equal.
  unfold release_pr_verdict.
  destruct (result _) as [pr|e]; [|reflexivity].
  destruct (truthy pr); [|reflexivity].
  destruct (py_get pr (py "number") VNone), (py_get pr (py "title") VNone),
    (py_get pr (py "merged_at") VNone) as [m|]; try reflexivity.
  destruct (py_slice_to 10 m); reflexivity.
Qed.

(** X13.  A run in which every step passes makes ten requests, in this
    order: the two branches, the four files, the listing of closed pull
    requests, the discovered pull request by its number, that same pull
    request a second time, and the commit of its merge sha. *)
Theorem passing_run_requests (org : pystr) (hdrs : headers_t) (n : pyval) :
  result environment = Ok (Some org, Some hdrs) ->
  org <> [] -> hdrs <> [] ->
  result (branches hdrs org) = Ok true ->
  result (files hdrs org) = Ok true ->
  result (release_pr hdrs org) = Ok n ->
  truthy n = true ->
  result (merge_target n hdrs org) = Ok true ->
  result (merge_method n hdrs org) = Ok true ->
  exists items sha,
    fetched requests_get (api_url org harmony (py "pulls/" ++ py_str py_repr n)) hdrs
      = Some (VDict items)
    /\ lookup (py "merge_commit_sha") items = Some sha
    /\ requests (trace run)
       = [api_url org harmony (py "branches/" ++ py "release-v1.1.0");
          api_url org harmony (py "branches/" ++ py "main")]
         ++ map (content_url org harmony) core_files
         ++ [api_url org harmony
               (py "pulls?state=closed&base=" ++ py "main" ++ py "&per_page=100");
             api_url org harmony (py "pulls/" ++ py_str py_repr n);
             api_url org harmony (py "pulls/" ++ py_str py_repr n);
             api_url org harmony (py "commits/" ++ py_str py_repr sha)].
Proof.
  intros Henv Horg Hhdrs Hb Hf Hd Hn Ht Hm.
  assert (Hs : result (squash n hdrs org) = Ok true).
  { rewrite verify_merge_method_eq in Hm. exact Hm. }
  destruct (squash_success_requests py_repr requests_get hdrs org harmony n Hs)
    as [items [sha [Hpr [Hsha [_ Hreq]]]]].
  exists items, sha. split; [exact Hpr|]. split; [exact Hsha|].
  assert (Henv_req : requests (trace environment) = []).
  { destruct (verify_environment_cases os_environ)
      as [[_ [_ H]] | [token [org' [_ [_ [_ [_ H]]]]]]]; [exact H|].
    rewrite H. reflexivity. }
  assert (Hb_req : requests (trace (branches hdrs org))
                   = [api_url org harmony (py "branches/" ++ py "release-v1.1.0");
                      api_url org harmony (py "branches/" ++ py "main")]).
  { rewrite verify_branches_eq in Hb |- *. cbn [result snd] in Hb.
    injection Hb as Hb. apply andb_true_iff in Hb. destruct Hb as [-> ->].
    cbn [trace fst requests].
    repeat (rewrite ?requests_app, ?api_diagnostic_requests; cbn [app requests]).
    reflexivity. }
  assert (Hf_req : requests (trace (files hdrs org))
                   = map (content_url org harmony) core_files).
  { rewrite verify_core_files_eq. cbn [trace fst requests].
    rewrite requests_app, turns_requests.
    destruct (forallb _ core_files); cbn [requests]; now rewrite app_nil_r. }
  assert (Hm_req : requests (trace (merge_method n hdrs org))
                   = [api_url org harmony (py "pulls/" ++ py_str py_repr n);
                      api_url org harmony (py "commits/" ++ py_str py_repr sha)]).
  { rewrite verify_merge_method_eq, Hs. cbn [trace fst requests].
    rewrite requests_app, Hreq. reflexivity. }
  destruct org as [|c org]; [contradiction|].
  destruct hdrs as [|x hdrs]; [contradiction|].
  unfold run_harmony_release_verification. rewrite !trace_print.
  rewrite (trace_bind_ok _ _ _ Henv). cbv beta iota.
  rewrite (trace_bind_ok _ _ _ Hb). cbn [negb].
  rewrite (trace_bind_ok _ _ _ Hf). cbn [negb].
  rewrite (trace_bind_ok _ _ _ Hd), Hn. cbn [negb].
  rewrite (trace_bind_ok _ _ _ Ht). cbn [negb].
  rewrite (trace_bind_ok _ _ _ Hm). cbn [negb].
  rewrite !trace_print. cbn [trace ret fst requests].
  rewrite !requests_app, Henv_req, Hb_req, Hf_req, release_pr_requests,
    merge_target_requests, Hm_req.
  cbn [requests app]. reflexivity.
Qed.

(** X14.  Every request of a run is made with the headers built from the
    configured token and a timeout of 10, and goes to an endpoint of the
    [harmony] repository of the configured organization. *)
Theorem run_requests_carry_token_and_repository (url : pystr) (h : headers_t) (t : Z) :
  In (Get url h t) (trace run) ->
  exists token org endpoint,
    GITHUB_RELEASE_TOKEN os_environ = Some token
    /\ GITHUB_ORG_HARMONY os_environ = Some org
    /\ h = _build_headers token
    /\ t = 10%Z
    /\ url = api_url org harmony endpoint.
Proof.
  intros Hin.
  destruct (verify_environment_cases os_environ)
    as [[_ [Hres Hreq]] | [token [org [Htoken [Htok [Horg [Horg' Heq]]]]]]].
  - exfalso. destruct (run_start lower py_repr b64decode_utf8 requests_get
                         os_environ _ Hres eq_refl) as [Htrace _].
    apply In_get_requests in Hin. rewrite Htrace, requests_app, Hreq in Hin.
    exact Hin.
  - assert (Hall : Forall (addressed_to (_build_headers token) org harmony) (trace run)).
    { assert (Henv : result environment = Ok (Some org, Some (_build_headers token)))
        by now rewrite Heq.
      unfold run_harmony_release_verification. rewrite !trace_print.
      rewrite (trace_bind_ok _ _ _ Henv), Heq.
      destruct org as [|c org]; [contradiction|].
      unfold _build_headers at 2. cbv beta iota. fold (_build_headers token).
      cbn [trace fst app]. repeat (constructor; [exact I|]).
      apply Forall_trace_bind; [apply addressed_branches | intros b].
      destruct b; cbn [negb]; [|constructor].
      apply Forall_trace_bind; [apply addressed_core_files | intros b].
      destruct b; cbn [negb]; [|constructor].
      apply Forall_trace_bind; [apply addressed_release_pr | intros n].
      destruct (truthy n); cbn [negb]; [|constructor].
      apply Forall_trace_bind; [apply addressed_merge_target | intros b].
      destruct b; cbn [negb]; [|constructor].
      apply Forall_trace_bind; [apply addressed_merge_method | intros b].
      destruct b; cbn [negb]; [|constructor].
      addressed. }
    rewrite Forall_forall in Hall. specialize (Hall _ Hin).
    destruct Hall as [-> [-> [endpoint ->]]].
    exists token, org, endpoint. now repeat split.
Qed.

(** X15.  [_verify_release_pr] cuts the [merged_at] of the record it found
    to its first ten characters without looking at its type: when that
    value is neither a text nor a list (a number, say) the step raises
    [TypeError], nothing catches it, and the program ends with status 1
    after the request of the discovery step. *)
Theorem unsliceable_merged_at_ends_program
    (org : pystr) (hdrs : headers_t) (items : list (pystr * pyval))
    (merged_at : pyval) (e : exn) :
  result environment = Ok (Some org, Some hdrs) ->
  org <> [] -> hdrs <> [] ->
  result (branches hdrs org) = Ok true ->
  result (files hdrs org) = Ok true ->
  result (find_release_pr hdrs org) = Ok (VDict items) ->
  lookup (py "merged_at") items = Some merged_at ->
  py_slice_to 10 merged_at = Raise e ->
  e = TypeError
  /\ release_pr hdrs org
     = (Stdout MStep4 :: trace (find_release_pr hdrs org), Raise TypeError)
  /\ result run = Raise TypeError
  /\ snd program = 1%Z.
Proof.
  intros Henv Horg Hhdrs Hb Hf Hfound Hmerged Hslice.
  assert (He : e = TypeError).
  { destruct merged_at; cbn in Hslice; congruence. }
  subst e. split; [reflexivity|].
  assert (Hd : release_pr hdrs org
               = (Stdout MStep4 :: trace (find_release_pr hdrs org), Raise TypeError)).
  { rewrite verify_release_pr_eq, Hfound. cbn [release_pr_verdict py_get].
    rewrite Hmerged, Hslice.
    destruct items as [|kv items]; [discriminate|].
    cbn [truthy fst snd]. now rewrite app_nil_r. }
  split; [exact Hd|].
  assert (Hrun : result run = Raise TypeError).
  { destruct org as [|c org]; [contradiction|].
    destruct hdrs as [|x hdrs]; [contradiction|].
    unfold run_harmony_release_verification. rewrite !result_print.
    rewrite (result_bind_ok _ _ _ Henv). cbv beta iota.
    rewrite (result_bind_ok _ _ _ Hb). cbn [negb].
    rewrite (result_bind_ok _ _ _ Hf). cbn [negb].
    apply result_bind_raise. now rewrite Hd. }
  split; [exact Hrun|].
  unfold main. destruct run as [t r]. cbn [result snd] in Hrun. now subst r.
Qed.

End PipelineEdges.

(* ------------------------------------------------------------------ *)
(** ** More worked examples *)

Section MoreExamples.

Import Scenario.

Local Abbreviation gw_A := (gateway table_A).
Local Abbreviation program table :=
  (main Reference.lower Reference.repr Reference.b64decode_utf8 (gateway table) env).

(** A directory in the place of [Cargo.toml]. *)
Lemma directory_reported_as_decode_error :
  _get_file_content Reference.b64decode_utf8 (gateway table_directory)
    (py "Cargo.toml") (py "main") headers org repo
  = ([Get (api_url org repo (py "contents/" ++ py "Cargo.toml" ++ py "?ref=" ++ py "main"))
        headers 10;
      Stderr (MFileDecodeError (py "Cargo.toml"))],
     Ok None).
Proof.
  apply (get_file_content_swallows_decode_error Reference.b64decode_utf8
           (gateway table_directory) headers org repo (py "Cargo.toml") (py "main")
           (VList [VDict [(py "name", VStr (py "Cargo.toml"))]]));
    vm_compute; reflexivity.
Defined.

(** The search returns the release pull request and never reaches the two
    things behind it. *)
Lemma garbage_after_match_ignored :
  result (_find_merged_pr Reference.lower (gateway table_garbage_tail)
            (py "Release v1.1.0") (py "main") headers org repo)
  = Ok release_pull.
Proof.
  apply (find_merged_pr_ignores_records_after_match Reference.lower
           (gateway table_garbage_tail) (py "Release v1.1.0") (py "main")
           headers org repo
           [pull 40 "Fix typo" merged "main" "aaa"] release_pull [VNone; VInt 7]).
  - vm_compute; reflexivity.
  - repeat constructor; eexists; (split; [reflexivity|]);
      right; eexists; vm_compute; reflexivity.
  - repeat constructor; unfold pull; rewrite release_candidate_dec;
      vm_compute; discriminate.
  - eexists; (split; [reflexivity|]); right; eexists; vm_compute; reflexivity.
  - apply release_candidate_dec. vm_compute; reflexivity.
Defined.

(** A null title in front of the release pull request. *)
Lemma null_title_raises :
  result (_find_merged_pr Reference.lower (gateway table_null_title)
            (py "Release v1.1.0") (py "main") headers org repo)
  = Raise AttributeError.
Proof.
  apply (find_merged_pr_raises_on_malformed_record Reference.lower
           (gateway table_null_title) (py "Release v1.1.0") (py "main")
           headers org repo
           [pull 40 "Fix typo" merged "main" "aaa"] untitled [release_pull]).
  - vm_compute; reflexivity.
  - repeat constructor; eexists; (split; [reflexivity|]);
      right; eexists; vm_compute; reflexivity.
  - repeat constructor; unfold pull; rewrite release_candidate_dec;
      vm_compute; discriminate.
  - right. exists (items untitled), VNone.
    split; [reflexivity|]. split; [vm_compute; reflexivity|]. discriminate.
Defined.

(** Pull request 4 passes for a squash merge on the strength of a commit
    that refers to pull request 42. *)
Lemma pull_request_4_accepted_by_reference_to_42 :
  result (_verify_squash_merge Reference.repr (gateway table_pr4) (VInt 4)
            headers org repo) = Ok true.
Proof.
  apply (squash_merge_accepts_longer_number Reference.repr (gateway table_pr4)
           headers org repo 4 42
           (items (pull 4 "Hotfix" merged "main" "abc123"))
           (items (commit ["p1"%string] "Release v1.1.0 (#42)"))
           (py "abc123") (py "Release v1.1.0 (#42)") (py "2")
           (VDict [(py "sha", VStr (py "p1"))]));
    try (vm_compute; reflexivity); try discriminate.
  apply str_in_occurs. vm_compute; reflexivity.
Defined.

(** A null base makes the merge-target check raise. *)
Lemma null_base_raises :
  _verify_pr_merge_target Reference.repr (gateway table_null_base) (VInt 42)
    headers org repo
  = ([Stdout MStep5; Get (api_url org repo (py "pulls/" ++ py "42")) headers 10],
     Raise AttributeError).
Proof.
  apply (proj2 (merge_target_missing_or_malformed_base Reference.repr
                  (gateway table_null_base) (VInt 42) headers org repo
                  [(py "number", VInt 42); (py "base", VNone)]
                  ltac:(vm_compute; reflexivity) ltac:(discriminate))
           VNone).
  - vm_compute; reflexivity.
  - discriminate.
Defined.

(** A [Cargo.toml] of 17 characters is reported as too small, although it
    holds the version line. *)
Lemma short_cargo_toml_too_small :
  check_core_file Reference.b64decode_utf8 (gateway table_short_file)
    cargo_rule true headers org repo
  = (Stdout (MFileChecking (CoreFile.name cargo_rule) (CoreFile.path cargo_rule)
               (CoreFile.branch cargo_rule))
       :: trace (_get_file_content Reference.b64decode_utf8 (gateway table_short_file)
                   (CoreFile.path cargo_rule) (CoreFile.branch cargo_rule)
                   headers org repo)
       ++ [Stderr (MFileTooSmall (CoreFile.name cargo_rule) 17 200)],
     Ok false).
Proof.
  apply (short_file_reported_by_size_only Reference.b64decode_utf8
           (gateway table_short_file) headers org repo cargo_rule true
           short_cargo_toml).
  - vm_compute; reflexivity.
  - discriminate.
  - vm_compute; reflexivity.
Defined.

(** A merge time given as a number ends the program with status 1. *)
Lemma numeric_merged_at_exits_1 :
  snd (program table_numeric_merged_at) = 1%Z.
Proof.
  destruct (unsliceable_merged_at_ends_program Reference.lower Reference.repr
              Reference.b64decode_utf8 (gateway table_numeric_merged_at) env
              org headers
              (items (pull 42 "Release v1.1.0" (VInt 1754560800) "main" "abc123"))
              (VInt 1754560800) TypeError)
    as [_ [_ [_ H]]];
    [ vm_compute; reflexivity | discriminate | discriminate
    | vm_compute; reflexivity | vm_compute; reflexivity | vm_compute; reflexivity
    | vm_compute; reflexivity | reflexivity | ].
  exact H.
Defined.

(** Scenario A makes ten requests. *)
Lemma scenario_A_makes_ten_requests :
  length (requests (trace (run table_A env))) = 10.
Proof.
  destruct (passing_run_requests Reference.lower Reference.repr
              Reference.b64decode_utf8 gw_A env org headers (VInt 42))
    as [pr_items [sha [_ [_ H]]]];
    [ vm_compute; reflexivity | discriminate | discriminate
    | vm_compute; reflexivity | vm_compute; reflexivity | vm_compute; reflexivity
    | reflexivity | vm_compute; reflexivity | vm_compute; reflexivity | ].
  unfold run. rewrite H. reflexivity.
Defined.

(** The request for the release branch in scenario A carries the token of
    the environment. *)
Lemma scenario_A_request_carries_token :
  exists token org' endpoint,
    GITHUB_RELEASE_TOKEN env = Some token
    /\ GITHUB_ORG_HARMONY env = Some org'
    /\ headers = _build_headers token
    /\ 10%Z = 10%Z
    /\ api_url org (py "harmony") (py "branches/" ++ py "release-v1.1.0")
       = api_url org' (py "harmony") endpoint.
Proof.
  apply (run_requests_carry_token_and_repository Reference.lower Reference.repr
           Reference.b64decode_utf8 gw_A env
           (api_url org (py "harmony") (py "branches/" ++ py "release-v1.1.0"))
           headers 10%Z).
  vm_compute. do 6 right. left. reflexivity.
Defined.

End MoreExamples.

(* ------------------------------------------------------------------ *)
(** ** The program on a terminal *)

Section TerminalRun.

Variable lower : pystr -> pystr.
Variable py_repr : pyval -> pystr.
Variable b64decode_utf8 : pystr -> option pystr.
Variable requests_get : pystr -> headers_t -> Z -> http_result.
Variable os_environ : environ.
Variable stdout_encodes : message -> bool.
Variable load_dotenv : option exn.

Local Abbreviation harmony := (py "harmony").
Local Abbreviation tprint := (Terminal.print stdout_encodes).
Local Abbreviation environment :=
  (Terminal._verify_environment os_environ stdout_encodes load_dotenv).
Local Abbreviation branches h o :=
  (Terminal._verify_branches requests_get stdout_encodes h o harmony).
Local Abbreviation files h o :=
  (Terminal._verify_core_files b64decode_utf8 requests_get stdout_encodes h o harmony).
Local Abbreviation release_pr h o :=
  (Terminal._verify_release_pr lower requests_get stdout_encodes h o harmony).
Local Abbreviation merge_target n h o :=
  (Terminal._verify_pr_merge_target py_repr requests_get stdout_encodes n h o harmony).
Local Abbreviation merge_method n h o :=
  (Terminal._verify_merge_method py_repr requests_get stdout_encodes n h o harmony).
Local Abbreviation run :=
  (Terminal.run_harmony_release_verification lower py_repr b64decode_utf8
     requests_get os_environ stdout_encodes load_dotenv).
Local Abbreviation program :=
  (Terminal.main lower py_repr b64decode_utf8 requests_get os_environ
     stdout_encodes load_dotenv).
Local Abbreviation passes :=
  (Terminal.run_passes lower py_repr b64decode_utf8 requests_get os_environ
     stdout_encodes load_dotenv).

Lemma result_tprint {B} (m : message) (k : unit -> M B) :
  result (bind (tprint m) k)
  = if stdout_encodes m then result (k tt) else Raise ValueError.
Proof.
  unfold Terminal.print. rewrite result_bind.
  destruct (stdout_encodes m); reflexivity.
Qed.

Lemma trace_tprint {B} (m : message) (k : unit -> M B) :
  trace (bind (tprint m) k)
  = if stdout_encodes m then Stdout m :: trace (k tt) else [].
Proof.
  unfold Terminal.print. rewrite trace_bind.
  destruct (stdout_encodes m); reflexivity.
Qed.

Lemma terminal_main_eq :
  fst program = trace run
  /\ snd program = match result run with Ok true => 0%Z | _ => 1%Z end.
Proof.
  unfold Terminal.main. destruct run as [t [[|]|e]]; split; reflexivity.
Qed.

Lemma terminal_run_true_iff : result run = Ok true <-> passes.
Proof.
  unfold Terminal.run_passes, Terminal.run_harmony_release_verification.
  rewrite !result_tprint. split.
  - destruct (stdout_encodes MSeparator) eqn:E1; [|discriminate].
    destruct (stdout_encodes MStart) eqn:E2; [|discriminate].
    destruct (result environment) as [[o h]|e] eqn:Henv;
      [rewrite (result_bind_ok _ _ _ Henv)
      | rewrite (result_bind_raise _ _ _ Henv); discriminate].
    destruct o as [[|c org]|]; try discriminate.
    destruct h as [[|x hdrs]|]; try discriminate.
    destruct (result (branches (x :: hdrs) (c :: org))) as [[|]|e] eqn:Hb;
      [rewrite (result_bind_ok _ _ _ Hb); cbn [negb]
      | rewrite (result_bind_ok _ _ _ Hb); discriminate
      | rewrite (result_bind_raise _ _ _ Hb); discriminate].
    destruct (result (files (x :: hdrs) (c :: org))) as [[|]|e] eqn:Hf;
      [rewrite (result_bind_ok _ _ _ Hf); cbn [negb]
      | rewrite (result_bind_ok _ _ _ Hf); discriminate
      | rewrite (result_bind_raise _ _ _ Hf); discriminate].
    destruct (result (release_pr (x :: hdrs) (c :: org))) as [n|e] eqn:Hd;
      [rewrite (result_bind_ok _ _ _ Hd)
      | rewrite (result_bind_raise _ _ _ Hd); discriminate].
    destruct (truthy n) eqn:Hn; cbn [negb]; [|discriminate].
    destruct (result (merge_target n (x :: hdrs) (c :: org))) as [[|]|e] eqn:Ht;
      [rewrite (result_bind_ok _ _ _ Ht); cbn [negb]
      | rewrite (result_bind_ok _ _ _ Ht); discriminate
      | rewrite (result_bind_raise _ _ _ Ht); discriminate].
    destruct (result (merge_method n (x :: hdrs) (c :: org))) as [[|]|e] eqn:Hm;
      [rewrite (result_bind_ok _ _ _ Hm); cbn [negb]
      | rewrite (result_bind_ok _ _ _ Hm); discriminate
      | rewrite (result_bind_raise _ _ _ Hm); discriminate].
    rewrite !result_tprint, E1.
    destruct (stdout_encodes MAllPassed) eqn:E3; [|discriminate].
    destruct (stdout_encodes (MSummaryRepo (c :: org) harmony)) eqn:E4; [|discriminate].
    destruct (stdout_encodes MSummaryBranch) eqn:E5; [|discriminate].
    destruct (stdout_encodes (MSummaryPr n)) eqn:E6; [|discriminate].
    destruct (stdout_encodes MSummaryMethod) eqn:E7; [|discriminate].
    intros _. exists (c :: org), (x :: hdrs), n.
    unfold Terminal.frame_written. rewrite E1, E2, E3, E4, E5, E6, E7.
    repeat split; try assumption; discriminate.
  - intros [org [hdrs [n [Henv [Horg [Hhdrs [Hb [Hf [Hd [Hn [Ht [Hm Hw]]]]]]]]]]]].
    unfold Terminal.frame_written in Hw. rewrite !andb_true_iff in Hw.
    destruct Hw as [[[[[[E1 E2] E3] E4] E5] E6] E7].
    destruct org as [|c org]; [contradiction|].
    destruct hdrs as [|x hdrs]; [contradiction|].
    rewrite E1, E2.
    rewrite (result_bind_ok _ _ _ Henv). cbv beta iota.
    rewrite (result_bind_ok _ _ _ Hb). cbn [negb].
    rewrite (result_bind_ok _ _ _ Hf). cbn [negb].
    rewrite (result_bind_ok _ _ _ Hd), Hn. cbn [negb].
    rewrite (result_bind_ok _ _ _ Ht). cbn [negb].
    rewrite (result_bind_ok _ _ _ Hm). cbn [negb].
    rewrite !result_tprint, E1, E3, E4, E5, E6, E7. reflexivity.
Qed.



(** On a stdout that can write every line the exit code is 0 exactly when
    every step passes. *)
Lemma exit_code_zero_iff_steps_pass_when_written :
  (forall m, stdout_encodes m = true) ->
  snd program = 0%Z
  <-> Terminal.all_steps_pass lower py_repr b64decode_utf8 requests_get os_environ
        stdout_encodes load_dotenv.
Proof.
  intros Hall.
  destruct terminal_main_eq as [_ ->].
  transitivity (result run = Ok true).
  { destruct (result run) as [[|]|e]; split; congruence. }
  rewrite terminal_run_true_iff.
  unfold Terminal.run_passes, Terminal.all_steps_pass, Terminal.frame_written.
  split.
  - intros [org [hdrs [n H]]]. exists org, hdrs, n. tauto.
  - intros [org [hdrs [n H]]]. exists org, hdrs, n.
    rewrite !Hall. tauto.
Qed.

(** *** Where an uncaught exception comes from *)

Local Abbreviation fault := (Terminal.host_fault stdout_encodes load_dotenv).


















End TerminalRun.

(* ------------------------------------------------------------------ *)
(** ** The program on a terminal: worked examples *)

Section TerminalExamples.

Import Scenario.

Local Abbreviation on_terminal table e enc dotenv :=
  (Terminal.main Reference.lower Reference.repr Reference.b64decode_utf8
     (gateway table) e enc dotenv).
Local Abbreviation run_on_terminal table e enc dotenv :=
  (Terminal.run_harmony_release_verification Reference.lower Reference.repr
     Reference.b64decode_utf8 (gateway table) e enc dotenv).




(** Scenario A on a stdout that writes every line exits with 0. *)
Example scenario_A_exits_0_on_utf8 :
  snd (on_terminal table_A env utf8 None) = 0%Z.
Proof. vm_compute. reflexivity. Qed.

(** On the stdout that cannot write U+1F389 the run of scenario A raises at
    the closing line, after the separator before it is written. *)
Example scenario_A_raises_at_closing_line :
  result (run_on_terminal table_A env gbk None) = Raise ValueError
  /\ last (trace (run_on_terminal table_A env gbk None)) (Stdout MStart)
     = Stdout MSeparator
  /\ length (requests (trace (run_on_terminal table_A env gbk None))) = 10.
Proof. vm_compute. repeat split. Qed.

(** A stdout that cannot write the opening banner ends the run before the
    first step. *)
Example unwritable_banner_ends_run :
  run_on_terminal table_A env
    (fun m => match m with MStart => false | _ => true end) None
  = ([Stdout MSeparator], Raise ValueError).
Proof. vm_compute. reflexivity. Qed.

(** When [load_dotenv] raises, the run ends with its exception after the
    line of the first step, and the program exits with 1. *)
Example load_dotenv_raises_ends_run :
  run_on_terminal table_A env utf8 (Some ValueError)
  = ([Stdout MSeparator; Stdout MStart; Stdout MSeparator; Stdout MStep1],
     Raise ValueError)
  /\ snd (on_terminal table_A env utf8 (Some ValueError)) = 1%Z.
Proof. vm_compute. split; reflexivity. Qed.

End TerminalExamples.

(* ------------------------------------------------------------------ *)
(** ** The two embeddings agree

    On a stdout that writes every line and with a [load_dotenv] that
    returns, the functions of [Terminal] are the functions of the first
    embedding: what is proved of those holds of the program in such
    surroundings. *)

Section Agreement.

Variable lower : pystr -> pystr.
Variable py_repr : pyval -> pystr.
Variable b64decode_utf8 : pystr -> option pystr.
Variable requests_get : pystr -> headers_t -> Z -> http_result.
Variable os_environ : environ.

Local Abbreviation every_line := (fun _ : message => true).

Lemma bind_ext {A B} (m : M A) (k k' : A -> M B) :
  (forall a, k a = k' a) -> bind m k = bind m k'.
Proof.
  intros H. destruct m as [t [a|e]]; simpl; [rewrite H|]; reflexivity.
Qed.

Lemma terminal_verify_environment_agrees :
  Terminal._verify_environment os_environ every_line None
  = _verify_environment os_environ.
Proof.
  unfold Terminal._verify_environment, _verify_environment, Terminal._load_env,
    _load_env.
  destruct (GITHUB_RELEASE_TOKEN os_environ) as [[|c token]|];
    destruct (GITHUB_ORG_HARMONY os_environ) as [[|d org]|]; reflexivity.
Qed.

Lemma terminal_verify_branches_agrees (h : headers_t) (o r : pystr) :
  Terminal._verify_branches requests_get every_line h o r
  = _verify_branches requests_get h o r.
Proof. reflexivity. Qed.

Lemma terminal_check_core_file_agrees (file : CoreFile.t) (all_passed : bool)
    (h : headers_t) (o r : pystr) :
  Terminal.check_core_file b64decode_utf8 requests_get every_line file all_passed h o r
  = check_core_file b64decode_utf8 requests_get file all_passed h o r.
Proof. reflexivity. Qed.

Lemma terminal_core_files_loop_agrees (l : list CoreFile.t) (all_passed : bool)
    (h : headers_t) (o r : pystr) :
  Terminal.core_files_loop b64decode_utf8 requests_get every_line l all_passed h o r
  = core_files_loop b64decode_utf8 requests_get l all_passed h o r.
Proof.
  revert all_passed. induction l as [|file rest IH]; intros all_passed;
    cbn [Terminal.core_files_loop core_files_loop]; [reflexivity|].
  rewrite terminal_check_core_file_agrees. apply bind_ext. exact IH.
Qed.

Lemma terminal_verify_core_files_agrees (h : headers_t) (o r : pystr) :
  Terminal._verify_core_files b64decode_utf8 requests_get every_line h o r
  = _verify_core_files b64decode_utf8 requests_get h o r.
Proof.
  unfold Terminal._verify_core_files, _verify_core_files.
  apply bind_ext. intros _. rewrite terminal_core_files_loop_agrees. reflexivity.
Qed.

Lemma terminal_verify_release_pr_agrees (h : headers_t) (o r : pystr) :
  Terminal._verify_release_pr lower requests_get every_line h o r
  = _verify_release_pr lower requests_get h o r.
Proof. reflexivity. Qed.

Lemma terminal_verify_pr_merge_target_agrees (n : pyval) (h : headers_t) (o r : pystr) :
  Terminal._verify_pr_merge_target py_repr requests_get every_line n h o r
  = _verify_pr_merge_target py_repr requests_get n h o r.
Proof. reflexivity. Qed.

Lemma terminal_verify_merge_method_agrees (n : pyval) (h : headers_t) (o r : pystr) :
  Terminal._verify_merge_method py_repr requests_get every_line n h o r
  = _verify_merge_method py_repr requests_get n h o r.
Proof. reflexivity. Qed.

Lemma terminal_run_agrees :
  Terminal.run_harmony_release_verification lower py_repr b64decode_utf8
    requests_get os_environ every_line None
  = run_harmony_release_verification lower py_repr b64decode_utf8 requests_get
      os_environ.
Proof.
  unfold Terminal.run_harmony_release_verification, run_harmony_release_verification.
  apply bind_ext; intros _. apply bind_ext; intros _. apply bind_ext; intros _.
  rewrite terminal_verify_environment_agrees.
  apply bind_ext; intros [[[|c org]|] [[|x hdrs]|]]; reflexivity.
Qed.

Lemma terminal_main_agrees :
  Terminal.main lower py_repr b64decode_utf8 requests_get os_environ every_line None
  = main lower py_repr b64decode_utf8 requests_get os_environ.
Proof. unfold Terminal.main, main. now rewrite terminal_run_agrees. Qed.

End Agreement.
